(** * sphinx-github-style: source links and keyword lexer

    A shallow embedding of [sphinx_github_style/__init__.py] and
    [sphinx_github_style/meth_lexer.py].

    The extension is glue code around three collaborators: the [git]
    command line, the running Python interpreter (loaded modules,
    attribute access, the [inspect] module) and a docutils document tree.
    Each collaborator is an explicit argument of the embedded functions:
    - a [vcs] maps an argument vector to the outcome of the process;
    - a [runtime] packs the interpreter oracles the code consults;
    - a document is a [node] tree that the annotator rewrites.

    A Python call that may raise returns a [pyresult]; the exception
    classes the code raises or lets escape are the constructors of [exn].
    Output written with [print] is not part of the model. *)

From Stdlib Require Import ZArith Ascii String DecimalString.
From stdpp Require Import gmap strings list.

Local Open Scope string_scope.
Local Open Scope list_scope.

(** ** Exceptions and results *)

(** The exception classes that occur in the two modules.  [RuntimeError]
    carries the [__cause__] set by [raise ... from e]. *)
#[warnings="-register-all"]
Inductive exn : Type :=
| CalledProcessError (returncode : Z) (cmd : list string)
| ExtensionError (message : string)
| LinkcodeError (message : string)
| RuntimeError (message : string) (cause : option exn)
| KeyError (key : string)
| IndexError (message : string)
| ValueError (message : string)
| AttributeError (message : string)
| ImportError (name : string).

Inductive pyresult (A : Type) : Type :=
| Return (value : A)
| Raise (e : exn).
Arguments Return {A} value.
Arguments Raise {A} e.

#[export] Instance pyresult_ret : MRet pyresult := λ A x, Return x.
#[export] Instance pyresult_bind : MBind pyresult := λ A B f m,
  match m with
  | Return x => f x
  | Raise e => Raise e
  end.
#[export] Instance pyresult_fmap : FMap pyresult := λ A B f m,
  match m with
  | Return x => Return (f x)
  | Raise e => Raise e
  end.

(** [isinstance(e, ExtensionError)]: the class Sphinx reports as an
    extension (configuration) error.  None of the other classes of [exn]
    derives from it. *)
Definition is_ExtensionError (e : exn) : bool :=
  match e with
  | ExtensionError _ => true
  | _ => false
  end.

(** The values a configuration dictionary holds, as far as the code
    looks at them. *)
Inductive pyval : Type :=
| PyNone
| PyStr (s : string).

(** Python truthiness. *)
Definition truthy (v : pyval) : bool :=
  match v with
  | PyNone => false
  | PyStr s => negb (String.eqb s "")
  end.

(** [str(v)], as an f-string formats it. *)
Definition py_str (v : pyval) : string :=
  match v with
  | PyNone => "None"
  | PyStr s => s
  end.

(** [d.get(key)] on a dictionary of Python values. *)
Definition dict_get (d : gmap string pyval) (key : string) : pyval :=
  default PyNone (d !! key).

(** ** String methods *)

(** [s.split(sep)] for a one-character separator: never the empty list,
    [''.split('.')] is [['']]. *)
Fixpoint split_on (sep : ascii) (s : string) : list string :=
  match s with
  | EmptyString => [EmptyString]
  | String c rest =>
      if Ascii.eqb c sep then EmptyString :: split_on sep rest
      else match split_on sep rest with
           | [] => [String c EmptyString]
           | w :: ws => String c w :: ws
           end
  end.

(** ASCII white space, as [bytes.strip()] and [str.split()] see it. *)
Definition is_whitespace (c : ascii) : bool :=
  match Ascii.N_of_ascii c with
  | 9%N | 10%N | 11%N | 12%N | 13%N | 32%N => true
  | _ => false
  end.

(** [s.split()]: split on runs of white space, no empty words. *)
Definition split_whitespace (s : string) : list string :=
  let fix go (cur : string) (s : string) : list string :=
    match s with
    | EmptyString => if String.eqb cur "" then [] else [String.rev cur]
    | String c rest =>
        if is_whitespace c
        then (if String.eqb cur "" then go "" rest
              else String.rev cur :: go "" rest)
        else go (String c cur) rest
    end in
  go "" s.

(** [s.lstrip(chars)], [s.rstrip(chars)] and [s.strip(chars)], the set of
    characters given as a predicate. *)
Fixpoint lstrip (p : ascii → bool) (s : string) : string :=
  match s with
  | EmptyString => EmptyString
  | String c rest => if p c then lstrip p rest else s
  end.

Fixpoint rstrip (p : ascii → bool) (s : string) : string :=
  match s with
  | EmptyString => EmptyString
  | String c rest =>
      match rstrip p rest with
      | EmptyString => if p c then EmptyString else String c EmptyString
      | r => String c r
      end
  end.

Definition strip (p : ascii → bool) (s : string) : string :=
  rstrip p (lstrip p s).

Definition is_slash (c : ascii) : bool := Ascii.eqb c "/".

(** [sep.join(words)]. *)
Fixpoint join (sep : string) (words : list string) : string :=
  match words with
  | [] => ""
  | [w] => w
  | w :: ws => w +:+ sep +:+ join sep ws
  end.

(** [str(n)] for an integer. *)
Definition str_of_int (n : Z) : string := NilZero.string_of_int (Z.to_int n).

(** [s.startswith(pat)]. *)
Fixpoint startswith (s pat : string) {struct pat} : bool :=
  match pat, s with
  | EmptyString, _ => true
  | String _ _, EmptyString => false
  | String a pat', String b s' => Ascii.eqb a b && startswith s' pat'
  end.

(** Number of positions of [s] at which [pat] occurs. *)
Fixpoint occurrences (pat s : string) : nat :=
  match s with
  | EmptyString => 0
  | String _ rest =>
      (if startswith s pat then 1 else 0) + occurrences pat rest
  end.

(** ** The version-control command line *)

(** What a finished process leaves behind: its standard output when the
    exit status is zero, the status otherwise.  A non-zero status is the
    failure signal of every [git] call the extension makes.  A process
    that cannot be started ([git] not installed) and output that is not
    UTF-8 have no outcome here: they raise other exceptions than
    [CalledProcessError], which none of the functions below catches. *)
Inductive proc_outcome : Type :=
| Exited0 (stdout : string)
| ExitedNonZero (returncode : Z).

(** The repository the build runs in, seen through [git]: the outcome of
    each argument vector. *)
Definition vcs : Type := list string → proc_outcome.

(** [subprocess.check_output(cmd)]. *)
Definition check_output (git : vcs) (cmd : list string) : pyresult string :=
  match git cmd with
  | Exited0 out => Return out
  | ExitedNonZero rc => Raise (CalledProcessError rc cmd)
  end.

(** [check_output(cmd).strip().decode('utf-8')]. *)
Definition check_output_stripped (git : vcs) (cmd : list string)
  : pyresult string :=
  strip is_whitespace <$> check_output git cmd.

(** The argument vectors of the four [git] calls. *)
Definition log_head_cmd : list string :=
  split_whitespace "git log -n1 --pretty=%H".

Definition describe_exact_cmd (head : string) : list string :=
  split_on " " ("git describe --exact-match --tags " +:+ head).

Definition describe_last_tag_cmd : list string :=
  split_on " " "git describe --tags --abbrev=0".

Definition show_toplevel_cmd : list string :=
  split_on " " "git rev-parse --show-toplevel".

(** [get_head]: the hash of the most recent commit, or its tag when the
    commit is tagged; ["master"] when [git log] fails. *)
Definition get_head (git : vcs) : pyresult string :=
  match check_output_stripped git log_head_cmd with
  | Return head =>
      match check_output_stripped git (describe_exact_cmd head) with
      | Return tag => Return tag
      | Raise (CalledProcessError _ _) => Return head
      | Raise e => Raise e
      end
  | Raise (CalledProcessError _ _) => Return "master"
  | Raise e => Raise e
  end.

(** [get_last_tag]: the most recent tag on the checked out branch. *)
Definition get_last_tag (git : vcs) : pyresult string :=
  match check_output_stripped git describe_last_tag_cmd with
  | Return tag => Return tag
  | Raise (CalledProcessError _ _) =>
      Raise (ExtensionError
               "``sphinx-github-style``: no tags found on current branch")
  | Raise e => Raise e
  end.

(** [get_linkcode_revision]: the blob to link to. *)
Definition get_linkcode_revision (git : vcs) (blob : string)
  : pyresult string :=
  if String.eqb blob "head" then get_head git
  else if String.eqb blob "last_tag" then get_last_tag git
  else Return blob.

(** ** Paths *)

(** A [pathlib] path on a POSIX file system: whether it is anchored at
    the root, and its components. *)
Record Path : Type := mkPath {
  absolute : bool;
  parts : list string;
}.

(** [Path(s)]: empty components and ["."] components are dropped. *)
Definition Path_of_str (s : string) : Path :=
  {| absolute := startswith s "/";
     parts := filter (λ w, w ≠ "" ∧ w ≠ ".") (split_on "/" s) |}.

(** [xs] without its prefix [pre], when [pre] is a prefix of [xs]. *)
Fixpoint strip_parts (pre xs : list string) : option (list string) :=
  match pre, xs with
  | [], _ => Some xs
  | _ :: _, [] => None
  | p :: pre', x :: xs' => if String.eqb p x then strip_parts pre' xs' else None
  end.

(** [p.relative_to(other)]: raises [ValueError] when [p] does not lie
    under [other]. *)
Definition relative_to (p other : Path) : pyresult Path :=
  if negb (Bool.eqb (absolute p) (absolute other))
  then Raise (ValueError "is not in the subpath")
  else match strip_parts (parts other) (parts p) with
       | Some rest => Return {| absolute := false; parts := rest |}
       | None => Raise (ValueError "is not in the subpath")
       end.

(** [p.as_posix()]. *)
Definition as_posix (p : Path) : string :=
  match absolute p, parts p with
  | false, [] => "."
  | false, ws => join "/" ws
  | true, ws => "/" +:+ join "/" ws
  end.

(** [get_repo_dir]: the root directory of the repository. *)
Definition get_repo_dir (git : vcs) : pyresult Path :=
  match check_output_stripped git show_toplevel_cmd with
  | Return out => Return (Path_of_str out)
  | Raise (CalledProcessError rc c) =>
      Raise (RuntimeError "Unable to determine the repository directory"
                          (Some (CalledProcessError rc c)))
  | Raise e => Raise e
  end.

(** ** The URL template *)

Definition template_suffix : string := "{filepath}#L{linestart}-L{linestop}".

(** [all(context.get(key) for key in keys)]. *)
Definition all_truthy (context : gmap string pyval) (keys : list string)
  : bool :=
  forallb (λ key, truthy (dict_get context key)) keys.

(** [context[key]]. *)
Definition dict_item (d : gmap string pyval) (key : string) : pyresult pyval :=
  match d !! key with
  | Some v => Return v
  | None => Raise (KeyError key)
  end.

(** Truthiness of the optional [blob] argument. *)
Definition blob_truthy (blob : option string) : bool :=
  match blob with
  | Some b => truthy (PyStr b)
  | None => false
  end.

(** The first step of [get_linkcode_url]: the base URL, taken from the
    context when [url] is [None]. *)
Definition base_url (context : option (gmap string pyval))
    (url : option string) : pyresult string :=
  match url with
  | Some u => Return u
  | None =>
      match context with
      | None =>
          Raise (ExtensionError
            "sphinx-github-style: config value ``linkcode_url`` is missing")
      | Some ctx =>
          if negb (all_truthy ctx ["github_user"; "github_repo"])
          then Raise (ExtensionError
            "sphinx-github-style: config value ``linkcode_url`` is missing")
          else
            user ← dict_item ctx "github_user";
            repo ← dict_item ctx "github_repo";
            Return ("https://github.com/" +:+ py_str user +:+ "/"
                    +:+ py_str repo)
      end
  end.

(** The second step: [get_linkcode_revision(blob) if blob else
    context.get('github_version')]. *)
Definition determine_blob (git : vcs) (blob : option string)
    (context : option (gmap string pyval)) : pyresult pyval :=
  if blob_truthy blob
  then PyStr <$> get_linkcode_revision git (default "" blob)
  else match context with
       | Some ctx => Return (dict_get ctx "github_version")
       | None => Raise (AttributeError
           "'NoneType' object has no attribute 'get'")
       end.

(** [get_linkcode_url(blob, context, url)]: the template later formatted
    by [linkcode_resolve]. *)
Definition get_linkcode_url (git : vcs) (blob : option string)
    (context : option (gmap string pyval)) (url : option string)
  : pyresult string :=
  url ← base_url context url;
  blob ← determine_blob git blob context;
  match blob with
  | PyNone =>
      Raise (ExtensionError
        "sphinx-github-style: must provide a blob or GitHub version to link to")
  | _ =>
      let url := strip is_slash url +:+ "/blob/" +:+ py_str blob +:+ "/" in
      Return (url +:+ template_suffix)
  end.

(** ** [str.format] with keyword arguments *)

(** The value of replacement field [name]: keyword lookup.  An empty or
    numeric name is positional, and no positional argument is passed. *)
Definition format_field (kwargs : list (string * string)) (name : string)
  : pyresult string :=
  match list_find (λ kv, kv.1 = name) kwargs with
  | Some (_, (_, v)) => Return v
  | None =>
      if forallb (λ c, Ascii.leb "0" c && Ascii.leb c "9")
                 (list_ascii_of_string name)
      then Raise (IndexError
        "Replacement index out of range for positional args tuple")
      else Raise (KeyError name)
  end.

(** [template.format] with keyword arguments, for templates whose
    replacement fields are plain names: [{{] and [}}] are literal
    braces, [{name}] is
    replaced by the keyword argument [name], a lone [}] or an unclosed
    field is a [ValueError].  [field] holds, reversed, the characters of
    the field being read, if any.  Conversions, format specifications,
    attribute and index lookups inside a field are not interpreted: the
    whole text between the braces is taken as the name. *)
Fixpoint format_go (kwargs : list (string * string)) (field : option string)
    (s : string) : pyresult string :=
  match field, s with
  | None, EmptyString => Return ""
  | Some _, EmptyString => Raise (ValueError "expected '}' before end of string")
  | None, String c rest =>
      if Ascii.eqb c "{" then
        match rest with
        | String "{" rest' => String "{" <$> format_go kwargs None rest'
        | _ => format_go kwargs (Some "") rest
        end
      else if Ascii.eqb c "}" then
        match rest with
        | String "}" rest' => String "}" <$> format_go kwargs None rest'
        | _ => Raise (ValueError "Single '}' encountered in format string")
        end
      else String c <$> format_go kwargs None rest
  | Some acc, String c rest =>
      if Ascii.eqb c "}" then
        v ← format_field kwargs (String.rev acc);
        String.append v <$> format_go kwargs None rest
      else if Ascii.eqb c "{" then
        Raise (ValueError "unexpected '{' in field name")
      else format_go kwargs (Some (String c acc)) rest
  end.

Definition str_format (template : string) (kwargs : list (string * string))
  : pyresult string :=
  format_go kwargs None template.

(** ** The interpreter *)

(** What the running interpreter answers to the questions
    [linkcode_resolve] and the lexer ask, over a type [Obj] of object
    identities.  The calls the code makes inside a block guarded by
    [except Exception] are oracles into [option], [None] standing for
    any exception raised. *)
Record runtime (Obj : Type) : Type := mkRuntime {
  (** [sys.modules.get(name)] *)
  sys_modules : string → option Obj;
  (** [getattr(obj, name)]: the attribute, or the exception the access
      raises, [AttributeError] for a missing attribute *)
  getattr : Obj → string → pyresult Obj;
  (** [isinstance(obj, property)] and [obj.fget] *)
  is_property : Obj → bool;
  fget : Obj → Obj;
  (** [isinstance(obj, cached_property)] and [obj.func] *)
  is_cached_property : Obj → bool;
  func : Obj → Obj;
  (** [inspect.unwrap(obj)] *)
  unwrap : Obj → option Obj;
  (** [inspect.getsourcefile(obj)]; [None] also where it returns [None] *)
  getsourcefile : Obj → option string;
  (** [inspect.getsourcelines(obj)]: the source lines and the number of
      the first one *)
  getsourcelines : Obj → option (list string * Z);
  (** [__import__(name)] *)
  import_ : string → pyresult Obj;
  (** [inspect.getmembers(obj)]: all members, sorted by name *)
  getmembers_all : Obj → list (string * Obj);
  (** [inspect.isfunction], [ismethod], [ismodule], [isclass] *)
  isfunction : Obj → bool;
  ismethod : Obj → bool;
  ismodule : Obj → bool;
  isclass : Obj → bool;
}.
Arguments sys_modules {Obj} _ _.
Arguments getattr {Obj} _ _ _.
Arguments is_property {Obj} _ _.
Arguments fget {Obj} _ _.
Arguments is_cached_property {Obj} _ _.
Arguments func {Obj} _ _.
Arguments unwrap {Obj} _ _.
Arguments getsourcefile {Obj} _ _.
Arguments getsourcelines {Obj} _ _.
Arguments import_ {Obj} _ _.
Arguments getmembers_all {Obj} _ _.
Arguments isfunction {Obj} _ _.
Arguments ismethod {Obj} _ _.
Arguments ismodule {Obj} _ _.
Arguments isclass {Obj} _ _.

(** ** The default link resolver *)

(** The qualifier fields of a signature. *)
Abbreviation info_dict := (gmap string string).

(** [info[key]]. *)
Definition info_item (info : info_dict) (key : string) : pyresult string :=
  match info !! key with
  | Some v => Return v
  | None => Raise (KeyError key)
  end.

(** The loop [for part in parts: obj = getattr(obj, part)] with its
    handler: [None] as soon as one access raises [AttributeError]; any
    other exception passes through. *)
Fixpoint getattr_chain {Obj} (rt : runtime Obj) (obj : Obj)
    (parts : list string) : pyresult (option Obj) :=
  match parts with
  | [] => Return (Some obj)
  | part :: rest =>
      match getattr rt obj part with
      | Return o => getattr_chain rt o rest
      | Raise (AttributeError _) => Return None
      | Raise e => Raise e
      end
  end.

(** The step after the loop: a property gives way to its getter, a
    cached property to its function. *)
Definition unwrap_accessor {Obj} (rt : runtime Obj) (obj : Obj) : Obj :=
  if is_property rt obj then fget rt obj
  else if is_cached_property rt obj then func rt obj
  else obj.

(** The first guarded block: the source file of the unwrapped object,
    relative to the repository; [None] when anything in it raises. *)
Definition source_filepath {Obj} (rt : runtime Obj) (repo_dir : Path)
    (obj : Obj) : option Path :=
  o ← unwrap rt obj;
  modpath ← getsourcefile rt o;
  match relative_to (Path_of_str modpath) repo_dir with
  | Return filepath => Some filepath
  | Raise _ => None
  end.

(** The body of [linkcode_resolve] from the lookup in [sys.modules]
    on, [modname] and [fullname] having been read. *)
Definition resolve_symbol {Obj} (rt : runtime Obj) (linkcode_url : string)
    (repo_dir : Path) (modname fullname : string)
  : pyresult (option string) :=
  match sys_modules rt modname with
  | None => Return None
  | Some submod =>
      match getattr_chain rt submod (split_on "." fullname) with
      | Raise e => Raise e
      | Return None => Return None
      | Return (Some obj) =>
          let obj := unwrap_accessor rt obj in
          match source_filepath rt repo_dir obj with
          | None => Return None
          | Some filepath =>
              match getsourcelines rt obj with
              | None => Return None
              | Some (source, lineno) =>
                  let linestart := lineno in
                  let linestop :=
                    (lineno + Z.of_nat (length source) - 1)%Z in
                  final_link ← str_format linkcode_url
                    [("filepath", as_posix filepath);
                     ("linestart", str_of_int linestart);
                     ("linestop", str_of_int linestop)];
                  Return (Some final_link)
              end
          end
      end
  end.

(** The function [get_linkcode_resolve] returns, its two closure
    variables made arguments.  The gate [domain != 'py' or not
    info['module']] reads ['module'] only in domain ['py']. *)
Definition linkcode_resolve {Obj} (rt : runtime Obj) (linkcode_url : string)
    (repo_dir : Path) (domain : string) (info : info_dict)
  : pyresult (option string) :=
  gate ← (if negb (String.eqb domain "py") then Return true
          else module ← info_item info "module";
               Return (negb (truthy (PyStr module))));
  if gate : bool then Return None
  else
    modname ← info_item info "module";
    fullname ← info_item info "fullname";
    resolve_symbol rt linkcode_url repo_dir modname fullname.

(** A link resolver as [conf.py] may supply it. *)
Abbreviation resolver := (string → info_dict → pyresult (option string)).

(** [get_linkcode_resolve(linkcode_url, repo_dir)]. *)
Definition get_linkcode_resolve {Obj} (rt : runtime Obj) (git : vcs)
    (linkcode_url : string) (repo_dir : option Path) : pyresult resolver :=
  repo_dir ← match repo_dir with
             | Some d => Return d
             | None => get_repo_dir git
             end;
  Return (linkcode_resolve rt linkcode_url repo_dir).

(** ** The document tree and its annotator *)

(** The docutils nodes the annotator meets.  A [desc] node carries the
    [domain] Sphinx gave it; the attributes of a signature are strings. *)
#[warnings="-register-all"]
Inductive node : Type :=
| desc (domain : string) (children : list node)
| desc_signature (attrs : gmap string string) (children : list node)
| reference (refuri : string) (internal : bool) (children : list node)
| inline (text : string) (classes : list string)
| element (children : list node).

(** [domain_keys.get(domain, [])]. *)
Definition domain_keys (domain : string) : list string :=
  if String.eqb domain "py" then ["module"; "fullname"]
  else if String.eqb domain "c" then ["names"]
  else if String.eqb domain "cpp" then ["names"]
  else if String.eqb domain "js" then ["object"; "fullname"]
  else [].

(** The dictionary [info] built from a signature: every key of the
    domain, with [''] for a missing or empty attribute. *)
Definition signode_info (keys : list string) (attrs : gmap string string)
  : info_dict :=
  foldl (λ info key, <[key := default "" (attrs !! key)]> info) ∅ keys.

(** The hyperlink appended to a signature. *)
Definition source_link (uri : string) : node :=
  reference uri false [inline "[source]" ["viewcode-link"]].

(** [not uri] for what the resolver returned. *)
Definition uri_falsy (uri : option string) : bool :=
  match uri with
  | None => true
  | Some u => String.eqb u ""
  end.

(** The loop over the children of one [desc] node, [uris] being the set
    of the links given so far.  The children are returned as the loop
    leaves them, with the exception that stopped it, if any. *)
Fixpoint annotate_signodes (resolve_target : resolver) (domain : string)
    (uris : gset string) (children : list node) : list node * option exn :=
  match children with
  | [] => ([], None)
  | signode :: rest =>
      let continue uris signode :=
        let '(rest', e) := annotate_signodes resolve_target domain uris rest in
        (signode :: rest', e) in
      match signode with
      | desc_signature attrs kids =>
          let info := signode_info (domain_keys domain) attrs in
          if decide (info = ∅) then continue uris signode
          else
            match resolve_target domain info with
            | Raise e => (children, Some e)
            | Return uri =>
                if uri_falsy uri then continue uris signode
                else
                  let uri := default "" uri in
                  if decide (uri ∈ uris) then continue uris signode
                  else continue ({[uri]} ∪ uris)
                         (desc_signature attrs (kids ++ [source_link uri]))
            end
      | _ => continue uris signode
      end
  end.

(** The body of the loop over the [desc] nodes. *)
Definition process_objnode (resolve_target : resolver) (objnode : node)
  : node * option exn :=
  match objnode with
  | desc domain children =>
      let '(children', e) :=
        annotate_signodes resolve_target domain ∅ children in
      (desc domain children', e)
  | _ => (objnode, None)
  end.

(** [doctree.findall(addnodes.desc)]: the [desc] nodes in document
    order, each given by the child indices that lead to it. *)
Fixpoint findall_desc (n : node) : list (list nat) :=
  let sub :=
    fix sub (i : nat) (l : list node) : list (list nat) :=
      match l with
      | [] => []
      | c :: r => ((λ p, i :: p) <$> findall_desc c) ++ sub (S i) r
      end in
  match n with
  | desc _ kids => [] :: sub 0 kids
  | desc_signature _ kids | reference _ _ kids | element kids => sub 0 kids
  | inline _ _ => []
  end.

Definition node_children (n : node) : list node :=
  match n with
  | desc _ kids | desc_signature _ kids | reference _ _ kids | element kids =>
      kids
  | inline _ _ => []
  end.

Definition set_children (n : node) (kids : list node) : node :=
  match n with
  | desc d _ => desc d kids
  | desc_signature a _ => desc_signature a kids
  | reference u i _ => reference u i kids
  | element _ => element kids
  | inline t c => inline t c
  end.

(** The in-place update of the node a path leads to. *)
Fixpoint update_at (f : node → node * option exn) (path : list nat)
    (n : node) : node * option exn :=
  match path with
  | [] => f n
  | i :: path' =>
      match node_children n !! i with
      | Some c =>
          let '(c', e) := update_at f path' c in
          (set_children n (<[i := c']> (node_children n)), e)
      | None => (n, None)
      end
  end.

(** [doctree_read]: the configured resolver must be callable; then every
    [desc] node found at the start is processed in turn. *)
Definition doctree_read (resolve_target : option resolver) (doctree : node)
  : node * option exn :=
  match resolve_target with
  | None =>
      (doctree,
       Some (LinkcodeError "Function `linkcode_resolve` is not given in conf.py"))
  | Some resolve_target =>
      foldl (λ '(tree, e) path,
               match e with
               | Some _ => (tree, e)
               | None => update_at (process_objnode resolve_target) path tree
               end)
            (doctree, None) (findall_desc doctree)
  end.

(** The links a [desc] node shows: the targets of the references that
    sit directly under its signatures. *)
Definition signode_links (n : node) : list string :=
  match n with
  | desc_signature _ kids =>
      omap (λ k, match k with reference u _ _ => Some u | _ => None end) kids
  | _ => []
  end.

Definition objnode_links (children : list node) : list string :=
  concat (signode_links <$> children).

(** ** The keyword lexer *)

(** [a or b]: [a] when it is truthy, else [b]. *)
Definition py_or {A} (truth : A → bool) (a b : A) : A :=
  if truth a then a else b.

(** [bool(f)] of a function object. *)
Definition function_truth {A B} (f : A → B) : bool := true.

(** [inspect.getmembers(obj, predicate)]. *)
Definition getmembers {Obj} (rt : runtime Obj) (obj : Obj)
    (predicate : Obj → bool) : list (string * Obj) :=
  filter (λ m, predicate m.2 = true) (getmembers_all rt obj).

(** [list(dict(members))]: the names, each once, in the order of their
    first occurrence. *)
Fixpoint dict_keys {Obj} (seen : list string) (members : list (string * Obj))
  : list string :=
  match members with
  | [] => []
  | (name, _) :: rest =>
      if decide (name ∈ seen) then dict_keys seen rest
      else name :: dict_keys (name :: seen) rest
  end.

(** [get_funcs(of)]. *)
Definition get_funcs {Obj} (rt : runtime Obj) (of_ : Obj) : list string :=
  let members :=
    getmembers rt of_ (py_or function_truth (isfunction rt) (ismethod rt)) in
  dict_keys [] members.

(** [get_pkg_funcs(pkg)]. *)
Definition get_pkg_funcs {Obj} (rt : runtime Obj) (pkg : Obj) : gset string :=
  let funcs_meths := get_funcs rt pkg in
  let modules := getmembers rt pkg (ismodule rt) in
  let funcs_meths :=
    foldl (λ funcs_meths m,
             let funcs_meths := funcs_meths ++ get_funcs rt m.2 in
             let classes := getmembers rt m.2 (isclass rt) in
             foldl (λ funcs_meths c, funcs_meths ++ get_funcs rt c.2)
                   funcs_meths classes)
          funcs_meths modules in
  list_to_set funcs_meths.

(** The lexer class, as far as the extension touches it. *)
Record TDKMethLexer : Type := mkLexer {
  EXTRA_KEYWORDS : gset string;
}.

(** [TDKMethLexer.get_pkg_lexer(pkg_name)]. *)
Definition get_pkg_lexer {Obj} (rt : runtime Obj) (cls : TDKMethLexer)
    (pkg_name : string) : pyresult TDKMethLexer :=
  pkg ← import_ rt pkg_name;
  let funcs := get_pkg_funcs rt pkg in
  Return {| EXTRA_KEYWORDS := funcs |}.

(** The errors with which the extension itself stops the build when the
    configuration or the repository is unusable: the [ExtensionError]s
    and the [LinkcodeError] of Sphinx, and the [RuntimeError] of
    [get_repo_dir].  An exception that merely escapes ([KeyError],
    [AttributeError], ...) is not one of them. *)
Definition is_configuration_error (e : exn) : bool :=
  match e with
  | ExtensionError _ | LinkcodeError _ | RuntimeError _ _ => true
  | _ => false
  end.

(** ** Example repositories *)

Definition example_hash : string := "9fceb02d0ae598e95dc970b74767f19372d61af8".

(** A checkout whose most recent commit carries the tag [v1.0]. *)
Definition tagged_repo : vcs := λ cmd,
  if decide (cmd = log_head_cmd) then
    Exited0 (example_hash +:+ String "010" "")
  else if decide (cmd = describe_exact_cmd example_hash) then
    Exited0 ("v1.0" +:+ String "010" "")
  else if decide (cmd = describe_last_tag_cmd) then
    Exited0 ("v1.0" +:+ String "010" "")
  else if decide (cmd = show_toplevel_cmd) then
    Exited0 ("/home/user/project" +:+ String "010" "")
  else ExitedNonZero 1.

(** A checkout without any tag. *)
Definition untagged_repo : vcs := λ cmd,
  if decide (cmd = log_head_cmd) then
    Exited0 (example_hash +:+ String "010" "")
  else if decide (cmd = show_toplevel_cmd) then
    Exited0 ("/home/user/project" +:+ String "010" "")
  else ExitedNonZero 128.

(** A directory outside any repository: every [git] call fails. *)
Definition not_a_repository : vcs := λ _, ExitedNonZero 128.

(** ** An example program *)

(** The objects of a small documented package, laid out as

      pkg/__init__.py    def helper
      pkg/mod.py         class ClassName
                           def method_name        lines 10 to 15
                           size, a property       getter at lines 20 to 22
                           from_json, a classmethod
                         External, a class imported from site-packages
 *)
Inductive example_obj : Type :=
| o_pkg | o_pkg_mod | o_helper
| o_ClassName | o_method_name | o_size | o_size_fget | o_from_json
| o_External.

Definition example_lookup (table : list (string * example_obj))
    (name : string) : option example_obj :=
  snd <$> (snd <$> list_find (λ kv, kv.1 = name) table).

Definition example_members (o : example_obj) : list (string * example_obj) :=
  match o with
  | o_pkg => [("helper", o_helper); ("mod", o_pkg_mod)]
  | o_pkg_mod => [("ClassName", o_ClassName); ("External", o_External)]
  | o_ClassName =>
      [("from_json", o_from_json); ("method_name", o_method_name);
       ("size", o_size)]
  | _ => []
  end.

Definition example_sourcefile (o : example_obj) : option string :=
  match o with
  | o_pkg | o_helper => Some "/home/user/project/pkg/__init__.py"
  | o_pkg_mod | o_ClassName | o_method_name | o_size_fget | o_from_json =>
      Some "/home/user/project/pkg/mod.py"
  | o_External => Some "/usr/lib/python3/site-packages/other/base.py"
  | o_size => None
  end.

Definition example_sourcelines (o : example_obj) : option (list string * Z) :=
  match o with
  | o_method_name =>
      Some (["    def method_name(self, x):";
             "        if x is None:";
             "            return self.default";
             "        value = self.table[x]";
             "        self.seen.add(x)";
             "        return value"], 10%Z)
  | o_size_fget =>
      Some (["    @property"; "    def size(self):";
             "        return len(self.table)"], 20%Z)
  | o_helper => Some (["def helper():"; "    return 1"], 3%Z)
  | _ => None
  end.

Definition example_runtime : runtime example_obj := {|
  sys_modules := example_lookup [("pkg", o_pkg); ("pkg.mod", o_pkg_mod)];
  getattr := λ o name,
    match example_lookup (example_members o) name with
    | Some value => Return value
    | None => Raise (AttributeError name)
    end;
  is_property := λ o, match o with o_size => true | _ => false end;
  fget := λ o, match o with o_size => o_size_fget | _ => o end;
  is_cached_property := λ _, false;
  func := λ o, o;
  unwrap := λ o, Some o;
  getsourcefile := example_sourcefile;
  getsourcelines := example_sourcelines;
  import_ := λ name,
    if String.eqb name "pkg" then Return o_pkg else Raise (ImportError name);
  getmembers_all := example_members;
  isfunction := λ o,
    match o with o_helper | o_method_name | o_size_fget => true | _ => false end;
  ismethod := λ o, match o with o_from_json => true | _ => false end;
  ismodule := λ o, match o with o_pkg | o_pkg_mod => true | _ => false end;
  isclass := λ o, match o with o_ClassName | o_External => true | _ => false end;
|}.

Definition example_repo_dir : Path := Path_of_str "/home/user/project".

Definition example_template : string :=
  "https://github.com/user/project/blob/v1.0/{filepath}#L{linestart}-L{linestop}".

(** The qualifier fields of [pkg.mod.ClassName.method_name]. *)
Definition example_info : info_dict :=
  {[ "module" := "pkg.mod"; "fullname" := "ClassName.method_name" ]}.

(** ** Vocabulary of the statements *)

(** No brace occurs in [s]: [str.format] copies such a text unchanged. *)
Fixpoint no_braces (s : string) : bool :=
  match s with
  | EmptyString => true
  | String c rest =>
      negb (Ascii.eqb c "{") && negb (Ascii.eqb c "}") && no_braces rest
  end.



(** The keyword arguments [linkcode_resolve] passes to [format]. *)
Definition link_kwargs (filepath : Path) (linestart linestop : Z)
  : list (string * string) :=
  [("filepath", as_posix filepath);
   ("linestart", str_of_int linestart);
   ("linestop", str_of_int linestop)].


(** No slash occurs in [s]. *)
Fixpoint no_slash (s : string) : bool :=
  match s with
  | EmptyString => true
  | String c rest => negb (is_slash c) && no_slash rest
  end.

(** None of the three substitution slots occurs in [s]. *)
Definition slot_free (s : string) : Prop :=
  occurrences "{filepath}" s = 0
  ∧ occurrences "{linestart}" s = 0
  ∧ occurrences "{linestop}" s = 0.

(** How often [uri] is among the links of a [desc] node. *)
Definition link_count (uri : string) (children : list node) : nat :=
  count_occ String.string_dec (objnode_links children) uri.

(** ** An example document *)

(** A description with two signatures of the same method, as an
    overloaded entry has them, followed by its content. *)
Definition example_children : list node :=
  [desc_signature
     {[ "module" := "pkg.mod"; "fullname" := "ClassName.method_name" ]}
     [inline "method_name(x)" []];
   desc_signature
     {[ "module" := "pkg.mod"; "fullname" := "ClassName.method_name" ]}
     [inline "method_name(x, y)" []];
   element [inline "Looks a value up." []]].

Definition example_objnode : node := desc "py" example_children.

Definition example_uri : string :=
  "https://github.com/user/project/blob/v1.0/pkg/mod.py#L10-L15".

Definition example_resolver : resolver :=
  linkcode_resolve example_runtime example_template example_repo_dir.

(** The resolver is called for [signode], a signature with qualifier
    fields in [domain], and answers [uri]. *)
Definition resolves_to (resolve_target : resolver) (domain : string)
    (signode : node) (uri : string) : Prop :=
  ∃ attrs kids,
    signode = desc_signature attrs kids
    ∧ signode_info (domain_keys domain) attrs ≠ ∅
    ∧ resolve_target domain (signode_info (domain_keys domain) attrs)
      = Return (Some uri).

(** A document: the description above, then a property whose content
    holds a description of another domain. *)
Definition example_doctree : node :=
  element
    [example_objnode;
     desc "py"
       [desc_signature
          {[ "module" := "pkg.mod"; "fullname" := "ClassName.size" ]}
          [inline "size" []];
        element
          [desc "js"
             [desc_signature {[ "object" := "Widget" ]}
                             [inline "Widget.size" []]]]]].

(** ** Further example programs *)

(** The example program with the getter of [size] also reachable under
    its own name, [ClassName._get_size]. *)
Definition accessor_runtime : runtime example_obj :=
  {| sys_modules := sys_modules example_runtime;
     getattr := λ o name,
       match o with
       | o_ClassName =>
           if String.eqb name "_get_size" then Return o_size_fget
           else getattr example_runtime o name
       | _ => getattr example_runtime o name
       end;
     is_property := is_property example_runtime;
     fget := fget example_runtime;
     is_cached_property := is_cached_property example_runtime;
     func := func example_runtime;
     unwrap := unwrap example_runtime;
     getsourcefile := getsourcefile example_runtime;
     getsourcelines := getsourcelines example_runtime;
     import_ := import_ example_runtime;
     getmembers_all := getmembers_all example_runtime;
     isfunction := isfunction example_runtime;
     ismethod := ismethod example_runtime;
     ismodule := ismodule example_runtime;
     isclass := isclass example_runtime |}.

(** The same, with [size] written as a [functools.cached_property]
    instead of a [property]. *)
Definition cached_runtime : runtime example_obj :=
  {| sys_modules := sys_modules accessor_runtime;
     getattr := getattr accessor_runtime;
     is_property := λ _, false;
     fget := λ o, o;
     is_cached_property := λ o, match o with o_size => true | _ => false end;
     func := λ o, match o with o_size => o_size_fget | _ => o end;
     unwrap := unwrap accessor_runtime;
     getsourcefile := getsourcefile accessor_runtime;
     getsourcelines := getsourcelines accessor_runtime;
     import_ := import_ accessor_runtime;
     getmembers_all := getmembers_all accessor_runtime;
     isfunction := isfunction accessor_runtime;
     ismethod := ismethod accessor_runtime;
     ismodule := ismodule accessor_runtime;
     isclass := isclass accessor_runtime |}.

(** The example program with a lazily imported attribute: looking up
    [optional] on any object runs an import that fails. *)
Definition lazy_runtime : runtime example_obj :=
  {| sys_modules := sys_modules example_runtime;
     getattr := λ o name,
       if String.eqb name "optional" then Raise (ImportError "numpy")
       else getattr example_runtime o name;
     is_property := is_property example_runtime;
     fget := fget example_runtime;
     is_cached_property := is_cached_property example_runtime;
     func := func example_runtime;
     unwrap := unwrap example_runtime;
     getsourcefile := getsourcefile example_runtime;
     getsourcelines := getsourcelines example_runtime;
     import_ := import_ example_runtime;
     getmembers_all := getmembers_all example_runtime;
     isfunction := isfunction example_runtime;
     ismethod := ismethod example_runtime;
     ismodule := ismodule example_runtime;
     isclass := isclass example_runtime |}.

(** ** Vocabulary for the document tree *)

(** What the loop may do to a child of a [desc] node: leave it as it
    is, or append one link with a non-empty target to a signature. *)
Inductive annotated : node → node → Prop :=
| annotated_same n : annotated n n
| annotated_link attrs kids uri :
    uri ≠ "" →
    annotated (desc_signature attrs kids)
              (desc_signature attrs (kids ++ [source_link uri])).

(** [n] has the shape of the links the annotator appends. *)
Definition is_source_link (n : node) : bool :=
  match n with
  | reference _ false [inline text classes] =>
      String.eqb text "[source]" && bool_decide (classes = ["viewcode-link"])
  | _ => false
  end.

(** The document without the source links under its signatures. *)
Fixpoint erase_links (n : node) : node :=
  match n with
  | desc d kids => desc d (map erase_links kids)
  | desc_signature attrs kids =>
      desc_signature attrs
        ((fix go (l : list node) : list node :=
            match l with
            | [] => []
            | k :: rest =>
                if is_source_link k then go rest else erase_links k :: go rest
            end) kids)
  | reference u i kids => reference u i (map erase_links kids)
  | inline t c => inline t c
  | element kids => element (map erase_links kids)
  end.

(** The children of a signature without its source links. *)
Definition erase_signature_children (kids : list node) : list node :=
  flat_map (λ k, if is_source_link k then [] else [erase_links k]) kids.

(** The resolver never gives a link: every call returns [None] or
    ['']. *)
Definition never_links (resolve_target : resolver) : Prop :=
  ∀ domain info, ∃ uri,
    resolve_target domain info = Return uri ∧ uri_falsy uri = true.

(** ** The Sphinx application *)

(** The configuration object of Sphinx, as the two [setup] functions
    and the helpers [get_conf_val] and [set_conf_val] use it, over a
    type [V] of values: the dictionary [_raw_config] read from
    [conf.py], the values registered with [add_config_value], each with
    its default, and the attributes set on the object itself. *)
Record Config (V : Type) : Type := mkConfig {
  _raw_config : gmap string V;
  config_values : gmap string V;
  config_attrs : gmap string V;
}.
Arguments mkConfig {V} _ _ _.
Arguments _raw_config {V} _.
Arguments config_values {V} _.
Arguments config_attrs {V} _.

(** [getattr(config, attr)]: an attribute of the object, else the
    default of a registered value, else [AttributeError].  (For a
    registered name newer versions of Sphinx answer with the value of
    [conf.py] when there is one; the readers below prefer [_raw_config]
    and do not see the difference.) *)
Definition config_getattr {V} (config : Config V) (attr : string)
  : pyresult V :=
  match config_attrs config !! attr with
  | Some v => Return v
  | None =>
      match config_values config !! attr with
      | Some v => Return v
      | None => Raise (AttributeError ("No such config value: " +:+ attr))
      end
  end.

(** [config.add(name, default, ...)], behind [app.add_config_value]: a
    name can be registered once. *)
Definition config_add {V} (config : Config V) (name : string) (default : V)
  : pyresult (Config V) :=
  match config_values config !! name with
  | Some _ =>
      Raise (ExtensionError ("Config value '" +:+ name +:+ "' already present"))
  | None =>
      Return {| _raw_config := _raw_config config;
                config_values := <[name := default]> (config_values config);
                config_attrs := config_attrs config |}
  end.

(** The functions of the package that are connected to events. *)
Inductive callback : Type :=
| cb_add_static_path
| cb_doctree_read.

(** The lexer classes handed to [app.add_lexer]. *)
Inductive lexer_class : Type :=
| GitHubLexer
| TDKLexer (cls : TDKMethLexer).

(** The application: its configuration, the callbacks connected to
    events in the order of the calls, and the lexers by alias. *)
Record Sphinx (V : Type) : Type := mkSphinx {
  config : Config V;
  listeners : list (string * callback);
  lexers : gmap string lexer_class;
}.
Arguments mkSphinx {V} _ _ _.
Arguments config {V} _.
Arguments listeners {V} _.
Arguments lexers {V} _.

Definition with_config {V} (app : Sphinx V) (c : Config V) : Sphinx V :=
  {| config := c; listeners := listeners app; lexers := lexers app |}.

(** [get_conf_val(app, attr, default)]:
    [app.config._raw_config.get(attr, getattr(app.config, attr, default))]. *)
Definition get_conf_val {V} (app : Sphinx V) (attr : string) (default : V)
  : V :=
  let fallback :=
    match config_getattr (config app) attr with
    | Return v => v
    | Raise _ => default
    end in
  match _raw_config (config app) !! attr with
  | Some v => v
  | None => fallback
  end.

(** [set_conf_val(app, attr, value)]: the entry of [_raw_config] and the
    attribute are both set. *)
Definition set_conf_val {V} (app : Sphinx V) (attr : string) (value : V)
  : Sphinx V :=
  with_config app
    {| _raw_config := <[attr := value]> (_raw_config (config app));
       config_values := config_values (config app);
       config_attrs := <[attr := value]> (config_attrs (config app)) |}.

(** [app.connect(event, callback)]. *)
Definition connect {V} (app : Sphinx V) (event : string) (cb : callback)
  : Sphinx V :=
  {| config := config app;
     listeners := listeners app ++ [(event, cb)];
     lexers := lexers app |}.

(** [app.add_config_value(name, default, rebuild)]. *)
Definition add_config_value {V} (app : Sphinx V) (name : string) (default : V)
  : pyresult (Sphinx V) :=
  with_config app <$> config_add (config app) name default.

(** [app.add_lexer(alias, lexer)]. *)
Definition add_lexer {V} (app : Sphinx V) (alias : string)
    (lexer : lexer_class) : Sphinx V :=
  {| config := config app;
     listeners := listeners app;
     lexers := <[alias := lexer]> (lexers app) |}.

(** ** [setup] of the lexer module *)

(** [meth_lexer.setup(app)].  The second argument of
    [_raw_config.get("pkg_name", getattr(app.config, "pkg_name"))] is
    evaluated before the call, so the attribute is looked up whether or
    not [conf.py] sets [pkg_name].  The value is [None] or a string. *)
Definition lexer_setup {Obj} (rt : runtime Obj) (cls : TDKMethLexer)
    (app : Sphinx pyval) : pyresult (Sphinx pyval) :=
  attribute ← config_getattr (config app) "pkg_name";
  let pkg_name := default attribute (_raw_config (config app) !! "pkg_name") in
  match pkg_name with
  | PyNone => Raise (ExtensionError "`pkg_name` is missing from conf.py")
  | PyStr name =>
      lexer ← get_pkg_lexer rt cls name;
      Return (add_lexer app "python" (TDKLexer lexer))
  end.

(** ** [setup] of the extension *)

(** The values [conf.py] gives the extension. *)
Inductive confval : Type :=
| CNone
| CStr (s : string)
| CDict (d : gmap string pyval)
| CFunc (f : resolver).

(** [callable(v)]. *)
Definition callable (v : confval) : bool :=
  match v with
  | CFunc _ => true
  | _ => false
  end.

(** A value read as an optional string, as an optional dictionary:
    [linkcode_blob] and [linkcode_url] are strings, [html_context] is a
    dictionary, each may be [None].  Values of another type are not
    what [conf.py] is meant to hold; the statements below exclude them
    with [conf_well_typed]. *)
Definition conf_str (v : confval) : option string :=
  match v with
  | CStr s => Some s
  | _ => None
  end.

Definition conf_dict (v : confval) : option (gmap string pyval) :=
  match v with
  | CDict d => Some d
  | _ => None
  end.

Definition str_or_none (v : confval) : Prop :=
  match v with
  | CNone | CStr _ => True
  | _ => False
  end.

Definition dict_or_none (v : confval) : Prop :=
  match v with
  | CNone | CDict _ => True
  | _ => False
  end.

(** Wherever the configuration holds one of the three values, it holds
    it at its type. *)
Definition conf_well_typed (c : Config confval) : Prop :=
  ∀ table, table ∈ [_raw_config c; config_values c; config_attrs c] →
    (∀ v, table !! "linkcode_blob" = Some v → str_or_none v)
    ∧ (∀ v, table !! "linkcode_url" = Some v → str_or_none v)
    ∧ (∀ v, table !! "html_context" = Some v → dict_or_none v).

(** The first half of [setup], up to the installation of the resolver:
    the static path handler is connected, [linkcode_blob] registered
    with default ['head'], the template built from the revision, the
    URL and the context, the repository root looked up, and the default
    resolver stored unless [conf.py] brings a callable one. *)
Definition setup_resolver {Obj} (rt : runtime Obj) (git : vcs)
    (app : Sphinx confval) : pyresult (Sphinx confval) :=
  let app := connect app "builder-inited" cb_add_static_path in
  app ← add_config_value app "linkcode_blob" (CStr "head");
  let linkcode_blob := get_conf_val app "linkcode_blob" CNone in
  blob ← match conf_str linkcode_blob with
         | Some b => Some <$> get_linkcode_revision git b
         | None => Return None
         end;
  linkcode_url ←
    get_linkcode_url git blob
      (conf_dict (get_conf_val app "html_context" CNone))
      (conf_str (get_conf_val app "linkcode_url" CNone));
  let linkcode_func := get_conf_val app "linkcode_resolve" CNone in
  repo_dir ← get_repo_dir git;
  if callable linkcode_func then Return app
  else
    linkcode_func ← get_linkcode_resolve rt git linkcode_url (Some repo_dir);
    Return (set_conf_val app "linkcode_resolve" (CFunc linkcode_func)).

(** What [setup] returns to Sphinx. *)
Record extension_metadata : Type := mkMetadata {
  version : string;
  parallel_read_safe : bool;
}.

(** The second half: the two other extensions of the package are set
    up, [doctree_read] connected, [linkcode_resolve] registered and the
    lexer added.  The [setup] functions of the two extensions are not
    part of these sources: [setup_extension] stands for
    [app.setup_extension]. *)
Definition setup_register
    (setup_extension : string → Sphinx confval → pyresult (Sphinx confval))
    (display_version : string) (app : Sphinx confval)
  : pyresult (Sphinx confval * extension_metadata) :=
  app ← setup_extension "sphinx_github_style.add_linkcode_class" app;
  app ← setup_extension "sphinx_github_style.github_style" app;
  let app := connect app "doctree-read" cb_doctree_read in
  app ← add_config_value app "linkcode_resolve" CNone;
  let app := add_lexer app "python" GitHubLexer in
  Return (app, {| version := display_version; parallel_read_safe := true |}).

(** [setup(app)]. *)
Definition setup {Obj} (rt : runtime Obj) (git : vcs)
    (setup_extension : string → Sphinx confval → pyresult (Sphinx confval))
    (display_version : string) (app : Sphinx confval)
  : pyresult (Sphinx confval * extension_metadata) :=
  app ← setup_resolver rt git app;
  setup_register setup_extension display_version app.

(** ** Example applications *)

(** A project whose [conf.py] sets the URL and nothing else; Sphinx has
    registered [html_context] with an empty dictionary. *)
Definition example_app : Sphinx confval :=
  {| config :=
       {| _raw_config :=
            {[ "linkcode_url" := CStr "https://github.com/user/project" ]};
          config_values := {[ "html_context" := CDict ∅ ]};
          config_attrs := ∅ |};
     listeners := [];
     lexers := ∅ |}.

(** The same project with a resolver of its own in [conf.py]. *)
Definition example_app_own_resolver : Sphinx confval :=
  with_config example_app
    {| _raw_config :=
         {[ "linkcode_url" := CStr "https://github.com/user/project";
            "linkcode_resolve" := CFunc (λ _ _, Return None) ]};
       config_values := {[ "html_context" := CDict ∅ ]};
       config_attrs := ∅ |}.

(** A project that names its package in [conf.py] without any
    extension having registered [pkg_name]. *)
Definition example_lexer_app : Sphinx pyval :=
  {| config :=
       {| _raw_config := {[ "pkg_name" := PyStr "pkg" ]};
          config_values := ∅;
          config_attrs := ∅ |};
     listeners := [];
     lexers := ∅ |}.

(** The same project, [pkg_name] registered with default [None]. *)
Definition example_lexer_app_registered : Sphinx pyval :=
  {| config :=
       {| _raw_config := {[ "pkg_name" := PyStr "pkg" ]};
          config_values := {[ "pkg_name" := PyNone ]};
          config_attrs := ∅ |};
     listeners := [];
     lexers := ∅ |}.

(** * Properties *)

(** ** Revision and repository root *)

Lemma truthy_nonempty (s : string) : s ≠ "" → truthy (PyStr s) = true.
Proof.
  intros Hs. simpl. destruct (String.eqb_spec s ""); [contradiction | reflexivity].
Qed.

Lemma check_output_stripped_ok (git : vcs) cmd out :
  git cmd = Exited0 out →
  check_output_stripped git cmd = Return (strip is_whitespace out).
Proof. intros H. unfold check_output_stripped, check_output. by rewrite H. Qed.

Lemma check_output_stripped_fail (git : vcs) cmd rc :
  git cmd = ExitedNonZero rc →
  check_output_stripped git cmd = Raise (CalledProcessError rc cmd).
Proof. intros H. unfold check_output_stripped, check_output. by rewrite H. Qed.

(** C2. In ["head"] mode [get_linkcode_revision] returns the tag when
    [git describe --exact-match] finds one for the most recent commit,
    the hash of that commit when it finds none, and ["master"], without
    raising, when [git log] itself fails. *)
Theorem get_linkcode_revision_head (git : vcs) :
  (∀ out_hash out_tag,
     git log_head_cmd = Exited0 out_hash →
     git (describe_exact_cmd (strip is_whitespace out_hash)) = Exited0 out_tag →
     get_linkcode_revision git "head" = Return (strip is_whitespace out_tag))
  ∧ (∀ out_hash rc,
     git log_head_cmd = Exited0 out_hash →
     git (describe_exact_cmd (strip is_whitespace out_hash)) = ExitedNonZero rc →
     get_linkcode_revision git "head" = Return (strip is_whitespace out_hash))
  ∧ (∀ rc,
     git log_head_cmd = ExitedNonZero rc →
     get_linkcode_revision git "head" = Return "master").
Proof.
  unfold get_linkcode_revision; simpl; unfold get_head.
  split; [| split].
  - intros h t Hlog Htag.
    rewrite (check_output_stripped_ok _ _ _ Hlog).
    by rewrite (check_output_stripped_ok _ _ _ Htag).
  - intros h rc Hlog Htag.
    rewrite (check_output_stripped_ok _ _ _ Hlog).
    by rewrite (check_output_stripped_fail _ _ _ Htag).
  - intros rc Hlog.
    by rewrite (check_output_stripped_fail _ _ _ Hlog).
Qed.

Lemma get_linkcode_revision_head_witness :
  get_linkcode_revision tagged_repo "head" = Return "v1.0"
  ∧ get_linkcode_revision untagged_repo "head" = Return example_hash
  ∧ get_linkcode_revision not_a_repository "head" = Return "master".
Proof.
  split; [| split].
  - exact (proj1 (get_linkcode_revision_head tagged_repo)
             (example_hash +:+ String "010" "") ("v1.0" +:+ String "010" "")
             eq_refl eq_refl).
  - exact (proj1 (proj2 (get_linkcode_revision_head untagged_repo))
             (example_hash +:+ String "010" "") 128%Z eq_refl eq_refl).
  - exact (proj2 (proj2 (get_linkcode_revision_head not_a_repository))
             128%Z eq_refl).
Defined.

(** C6. In ["last_tag"] mode, when [git describe --tags] exits with a
    failure status because the branch has no tag, the result is the
    [ExtensionError] of [get_last_tag]; no revision string is returned in
    its place. *)
Theorem get_linkcode_revision_last_tag_no_tags (git : vcs) (rc : Z) :
  git describe_last_tag_cmd = ExitedNonZero rc →
  get_linkcode_revision git "last_tag"
    = Raise (ExtensionError
               "``sphinx-github-style``: no tags found on current branch")
  ∧ ∀ revision, get_linkcode_revision git "last_tag" ≠ Return revision.
Proof.
  intros H. unfold get_linkcode_revision; simpl; unfold get_last_tag.
  rewrite (check_output_stripped_fail _ _ _ H). split; [reflexivity | discriminate].
Qed.

Lemma get_linkcode_revision_last_tag_no_tags_witness :
  get_linkcode_revision untagged_repo "last_tag"
    = Raise (ExtensionError
               "``sphinx-github-style``: no tags found on current branch")
  ∧ ∀ revision, get_linkcode_revision untagged_repo "last_tag" ≠ Return revision.
Proof.
  exact (get_linkcode_revision_last_tag_no_tags untagged_repo 128%Z eq_refl).
Defined.

(** C7. [get_repo_dir] returns the directory [git rev-parse
    --show-toplevel] prints; when that call exits with a failure status
    it raises the build-stopping error of the extension, a
    [RuntimeError] whose cause is the [CalledProcessError] of the call. *)
Theorem get_repo_dir_spec (git : vcs) :
  (∀ out,
     git show_toplevel_cmd = Exited0 out →
     get_repo_dir git = Return (Path_of_str (strip is_whitespace out)))
  ∧ (∀ rc,
     git show_toplevel_cmd = ExitedNonZero rc →
     ∃ e, get_repo_dir git = Raise e
          ∧ is_configuration_error e = true
          ∧ e = RuntimeError "Unable to determine the repository directory"
                  (Some (CalledProcessError rc show_toplevel_cmd))).
Proof.
  unfold get_repo_dir. split.
  - intros out H. by rewrite (check_output_stripped_ok _ _ _ H).
  - intros rc H. rewrite (check_output_stripped_fail _ _ _ H). eauto.
Qed.

Lemma get_repo_dir_spec_witness :
  get_repo_dir tagged_repo
    = Return {| absolute := true; parts := ["home"; "user"; "project"] |}
  ∧ ∃ e, get_repo_dir not_a_repository = Raise e
         ∧ is_configuration_error e = true
         ∧ e = RuntimeError "Unable to determine the repository directory"
                 (Some (CalledProcessError 128 show_toplevel_cmd)).
Proof.
  split.
  - exact (proj1 (get_repo_dir_spec tagged_repo)
             ("/home/user/project" +:+ String "010" "") eq_refl).
  - exact (proj2 (get_repo_dir_spec not_a_repository) 128%Z eq_refl).
Defined.

(** ** The URL template: missing revision *)

(** With a context dictionary that has no usable ['github_version'] and a
    falsy [blob], [get_linkcode_url] raises its [ExtensionError]. *)
Lemma get_linkcode_url_no_version (git : vcs) blob ctx url :
  blob_truthy blob = false →
  dict_get ctx "github_version" = PyNone →
  get_linkcode_url git blob (Some ctx) (Some url)
    = Raise (ExtensionError
        "sphinx-github-style: must provide a blob or GitHub version to link to").
Proof.
  intros Hb Hv. unfold get_linkcode_url, determine_blob. simpl.
  rewrite Hb. simpl. by rewrite Hv.
Qed.

(** C5. Without a context dictionary the lookup of ['github_version']
    is attempted on [None]: for a supplied base URL and an absent or
    empty [blob], what escapes is an [AttributeError], not the
    [ExtensionError] the function raises when a context is given. *)
Theorem get_linkcode_url_no_context (git : vcs) (url : string) :
  let escaped :=
    AttributeError "'NoneType' object has no attribute 'get'" in
  get_linkcode_url git None None (Some url) = Raise escaped
  ∧ get_linkcode_url git (Some "") None (Some url) = Raise escaped
  ∧ is_ExtensionError escaped = false
  ∧ is_configuration_error escaped = false
  ∧ get_linkcode_url git None (Some ∅) (Some url)
    = Raise (ExtensionError
        "sphinx-github-style: must provide a blob or GitHub version to link to").
Proof. repeat split. Qed.

(** ** The domain gate and the qualifier fields *)

(** C10. Once the gate is passed, ['fullname'] is read without a guard:
    in domain ['py'], a dictionary with a non-empty ['module'] and no
    ['fullname'] makes [linkcode_resolve] raise [KeyError]; so does a
    dictionary without ['module'].  In any other domain the gate answers
    first and the result is "no link", whatever the dictionary holds. *)
Theorem linkcode_resolve_missing_fullname {Obj} (rt : runtime Obj)
    (linkcode_url : string) (repo_dir : Path) (info : info_dict) :
  (∀ m, info !! "module" = Some m → m ≠ "" → info !! "fullname" = None →
        linkcode_resolve rt linkcode_url repo_dir "py" info
          = Raise (KeyError "fullname"))
  ∧ (info !! "module" = None →
     linkcode_resolve rt linkcode_url repo_dir "py" info
       = Raise (KeyError "module"))
  ∧ (∀ domain, domain ≠ "py" →
     linkcode_resolve rt linkcode_url repo_dir domain info = Return None).
Proof.
  unfold linkcode_resolve, info_item. split; [| split].
  - intros m Hm Hne Hf. simpl. rewrite Hm. simpl.
    pose proof (truthy_nonempty m Hne) as Ht. simpl in Ht. rewrite Ht. simpl.
    by rewrite Hf.
  - intros Hm. simpl. by rewrite Hm.
  - intros domain Hd.
    destruct (String.eqb_spec domain "py"); [contradiction | reflexivity].
Qed.

Lemma linkcode_resolve_missing_fullname_witness :
  linkcode_resolve example_runtime example_template example_repo_dir "py"
    {[ "module" := "pkg.mod" ]} = Raise (KeyError "fullname")
  ∧ linkcode_resolve example_runtime example_template example_repo_dir "py"
      ∅ = Raise (KeyError "module")
  ∧ linkcode_resolve example_runtime example_template example_repo_dir "js"
      {[ "object" := "Widget" ]} = Return None.
Proof.
  split; [| split].
  - apply (proj1 (linkcode_resolve_missing_fullname example_runtime
             example_template example_repo_dir {[ "module" := "pkg.mod" ]})
             "pkg.mod"); [reflexivity | discriminate | reflexivity].
  - apply (proj1 (proj2 (linkcode_resolve_missing_fullname example_runtime
             example_template example_repo_dir ∅))). reflexivity.
  - apply (proj2 (proj2 (linkcode_resolve_missing_fullname example_runtime
             example_template example_repo_dir {[ "object" := "Widget" ]}))).
    discriminate.
Defined.

(** ** Rendering the template *)

Lemma append_empty_l (s : string) : "" +:+ s = s.
Proof. reflexivity. Qed.

Lemma append_String (c : ascii) (a b : string) :
  String c a +:+ b = String c (a +:+ b).
Proof. reflexivity. Qed.

Lemma append_empty_r (s : string) : s +:+ "" = s.
Proof.
  induction s as [| c s IH]; [reflexivity |].
  by rewrite append_String, IH.
Qed.

Lemma append_assoc (a b c : string) : (a +:+ b) +:+ c = a +:+ (b +:+ c).
Proof.
  induction a as [| x a IH]; [reflexivity |].
  by rewrite !append_String, IH.
Qed.

Lemma no_braces_app (a b : string) :
  no_braces (a +:+ b) = no_braces a && no_braces b.
Proof.
  induction a as [| c a IH]; [reflexivity |].
  rewrite append_String. simpl. rewrite IH. by rewrite Bool.andb_assoc.
Qed.

(** A text without braces is copied to the output. *)
Lemma format_go_literal kwargs (lit rest : string) :
  no_braces lit = true →
  format_go kwargs None (lit +:+ rest)
    = String.append lit <$> format_go kwargs None rest.
Proof.
  induction lit as [| c lit IH]; intros Hlit.
  - rewrite append_empty_l. by destruct (format_go kwargs None rest).
  - simpl in Hlit. apply andb_true_iff in Hlit as [Hc Hlit].
    apply andb_true_iff in Hc as [Hopen Hclose].
    apply negb_true_iff in Hopen, Hclose.
    rewrite append_String. simpl. rewrite Hopen, Hclose, (IH Hlit).
    by destruct (format_go kwargs None rest).
Qed.

(** The fixed suffix, rendered. *)
Lemma format_go_suffix (filepath linestart linestop : string) :
  format_go [("filepath", filepath); ("linestart", linestart);
             ("linestop", linestop)] None template_suffix
    = Return (filepath +:+ "#L" +:+ linestart +:+ "-L" +:+ linestop).
Proof.
  set (kwargs := [("filepath", filepath); ("linestart", linestart);
                  ("linestop", linestop)]).
  assert (format_field kwargs "filepath" = Return filepath) as H1
    by reflexivity.
  assert (format_field kwargs "linestart" = Return linestart) as H2
    by reflexivity.
  assert (format_field kwargs "linestop" = Return linestop) as H3
    by reflexivity.
  cbn. rewrite H1, H2, H3. cbn. by rewrite append_empty_r.
Qed.

(** A canonical template always renders. *)
Lemma str_format_canonical (base rev : string) filepath linestart linestop :
  no_braces base = true → no_braces rev = true →
  str_format (base +:+ "/blob/" +:+ rev +:+ "/" +:+ template_suffix)
             (link_kwargs filepath linestart linestop)
    = Return (base +:+ "/blob/" +:+ rev +:+ "/" +:+ as_posix filepath
              +:+ "#L" +:+ str_of_int linestart
              +:+ "-L" +:+ str_of_int linestop).
Proof.
  intros Hbase Hrev. unfold str_format, link_kwargs.
  rewrite (format_go_literal _ base) by done.
  change ("/blob/" +:+ rev +:+ "/" +:+ template_suffix)
    with ("/blob/" +:+ (rev +:+ "/" +:+ template_suffix)).
  rewrite (format_go_literal _ "/blob/") by done.
  rewrite (format_go_literal _ rev) by done.
  rewrite (format_go_literal _ "/") by done.
  by rewrite format_go_suffix.
Qed.

(** ** Resolving a symbol *)

(** With both qualifier fields present and a non-empty module name, the
    gate lets domain ['py'] through, and only that domain. *)
Lemma linkcode_resolve_fields {Obj} (rt : runtime Obj) linkcode_url repo_dir
    domain (info : info_dict) m f :
  info !! "module" = Some m → m ≠ "" → info !! "fullname" = Some f →
  linkcode_resolve rt linkcode_url repo_dir domain info
    = if String.eqb domain "py"
      then resolve_symbol rt linkcode_url repo_dir m f
      else Return None.
Proof.
  intros Hm Hne Hf. unfold linkcode_resolve, info_item.
  destruct (String.eqb domain "py"); simpl; [| reflexivity].
  rewrite Hm. simpl.
  pose proof (truthy_nonempty m Hne) as Ht. simpl in Ht. rewrite Ht. simpl.
  by rewrite Hf.
Qed.




(** C1. In domain ['py'], for a loaded module [m] and a dotted name [f]
    whose attribute chain from [m] ends in an object that, after the
    unwrapping steps of the code, has its source file under [repo_dir]
    and [n] source lines starting at line [L], [linkcode_resolve] returns
    the template formatted with the file's POSIX path relative to
    [repo_dir], [linestart = L] and [linestop = L + n - 1].  On a template
    [<base>/blob/<rev>/{filepath}#L{linestart}-L{linestop}] that is
    [<base>/blob/<rev>/<path>#L<L>-L<L+n-1>]; lines 10 to 15 of
    [pkg/mod.py] give [<base>/blob/<rev>/pkg/mod.py#L10-L15]. *)
Theorem linkcode_resolve_link {Obj} (rt : runtime Obj)
    (linkcode_url : string) (repo_dir : Path) (info : info_dict)
    (m f : string) (submod obj o : Obj) (modpath : string) (filepath : Path)
    (source : list string) (L : Z) :
  info !! "module" = Some m → m ≠ "" → info !! "fullname" = Some f →
  sys_modules rt m = Some submod →
  getattr_chain rt submod (split_on "." f) = Return (Some obj) →
  unwrap rt (unwrap_accessor rt obj) = Some o →
  getsourcefile rt o = Some modpath →
  relative_to (Path_of_str modpath) repo_dir = Return filepath →
  getsourcelines rt (unwrap_accessor rt obj) = Some (source, L) →
  let n := Z.of_nat (length source) in
  linkcode_resolve rt linkcode_url repo_dir "py" info
    = Some <$> str_format linkcode_url (link_kwargs filepath L (L + n - 1))
  ∧ (∀ base rev,
       no_braces base = true → no_braces rev = true →
       linkcode_url = base +:+ "/blob/" +:+ rev +:+ "/" +:+ template_suffix →
       linkcode_resolve rt linkcode_url repo_dir "py" info
         = Return (Some (base +:+ "/blob/" +:+ rev +:+ "/"
                         +:+ as_posix filepath
                         +:+ "#L" +:+ str_of_int L
                         +:+ "-L" +:+ str_of_int (L + n - 1)))
       ∧ (parts filepath = ["pkg"; "mod.py"] → L = 10%Z → n = 6%Z →
          linkcode_resolve rt linkcode_url repo_dir "py" info
            = Return (Some (base +:+ "/blob/" +:+ rev
                            +:+ "/pkg/mod.py#L10-L15")))).
Proof.
  intros Hm Hne Hf Hmod Hattr Hun Hfile Hrel Hlines n.
  assert (linkcode_resolve rt linkcode_url repo_dir "py" info
          = Some <$> str_format linkcode_url
                       (link_kwargs filepath L (L + n - 1))) as Hres.
  { rewrite (linkcode_resolve_fields rt _ _ _ _ m f Hm Hne Hf). simpl.
    unfold resolve_symbol, source_filepath.
    rewrite Hmod, Hattr. simpl. rewrite Hun. simpl. rewrite Hfile. simpl.
    rewrite Hrel, Hlines. unfold link_kwargs.
    by destruct (str_format _ _). }
  split; [exact Hres |].
  intros base rev Hbase Hrev ->.
  rewrite Hres, (str_format_canonical base rev _ _ _ Hbase Hrev).
  split; [reflexivity |].
  intros Hparts HL Hn.
  assert (absolute filepath = false) as Habs.
  { unfold relative_to in Hrel.
    destruct (negb _); [discriminate |].
    destruct (strip_parts _ _); [| discriminate].
    by injection Hrel as <-. }
  unfold as_posix. rewrite Habs, Hparts, Hn, HL. simpl.
  do 2 apply f_equal. do 3 apply (f_equal (String.append _)). reflexivity.
Qed.

Lemma linkcode_resolve_link_witness :
  linkcode_resolve example_runtime example_template example_repo_dir "py"
    example_info
  = Return (Some "https://github.com/user/project/blob/v1.0/pkg/mod.py#L10-L15").
Proof.
  refine (proj2 (proj2 (linkcode_resolve_link example_runtime
            example_template example_repo_dir example_info
            "pkg.mod" "ClassName.method_name"
            o_pkg_mod o_method_name o_method_name
            "/home/user/project/pkg/mod.py"
            {| absolute := false; parts := ["pkg"; "mod.py"] |}
            _ 10%Z eq_refl _ eq_refl eq_refl eq_refl eq_refl eq_refl eq_refl
            eq_refl)
          "https://github.com/user/project" "v1.0" eq_refl eq_refl eq_refl)
          eq_refl eq_refl eq_refl).
  discriminate.
Defined.





(** ** Occurrences of a text *)

Section occurrences.
Implicit Types pat a b s : string.

Lemma startswith_String c pat d s :
  startswith (String d s) (String c pat)
    = Ascii.eqb c d && startswith s pat.
Proof. reflexivity. Qed.

Lemma startswith_app pat a b :
  startswith a pat = true → startswith (a +:+ b) pat = true.
Proof.
  revert a. induction pat as [| c pat IH]; intros a; [by destruct a |].
  destruct a as [| d a]; [discriminate |].
  rewrite append_String, !startswith_String.
  destruct (Ascii.eqb c d); [apply IH | done].
Qed.

Lemma startswith_refl pat : startswith pat pat = true.
Proof.
  induction pat as [| c pat IH]; [done |].
  by rewrite startswith_String, Ascii.eqb_refl.
Qed.

(** A text without slash does not reach across a slash. *)
Lemma startswith_app_slash pat a b :
  no_slash pat = true →
  startswith (a +:+ String "/" b) pat = startswith a pat.
Proof.
  revert a. induction pat as [| c pat IH]; intros a Hpat; [by destruct a |].
  simpl in Hpat. apply andb_true_iff in Hpat as [Hc Hpat].
  destruct a as [| d a].
  - rewrite append_empty_l, startswith_String.
    unfold is_slash in Hc. apply negb_true_iff in Hc. by rewrite Hc.
  - rewrite append_String, !startswith_String.
    destruct (Ascii.eqb c d); [by apply IH | done].
Qed.

Lemma occurrences_String pat c s :
  occurrences pat (String c s)
    = (if startswith (String c s) pat then 1 else 0) + occurrences pat s.
Proof. reflexivity. Qed.

Lemma occurrences_app_slash pat a b :
  no_slash pat = true → pat ≠ "" →
  occurrences pat (a +:+ String "/" b)
    = occurrences pat a + occurrences pat b.
Proof.
  intros Hpat Hne. induction a as [| c a IH].
  - rewrite append_empty_l, occurrences_String.
    pose proof (startswith_app_slash pat "" b Hpat) as Hs.
    rewrite append_empty_l in Hs. rewrite Hs.
    by destruct pat.
  - rewrite append_String, !occurrences_String, IH.
    rewrite <- append_String, (startswith_app_slash pat _ b Hpat). lia.
Qed.

Lemma occurrences_app_le pat a b :
  (occurrences pat a ≤ occurrences pat (a +:+ b))%nat.
Proof.
  induction a as [| c a IH]; [simpl; lia |].
  rewrite append_String, !occurrences_String, <- append_String.
  destruct (startswith (String c a) pat) eqn:Hp.
  - rewrite (startswith_app _ _ b Hp). lia.
  - destruct (startswith _ pat); lia.
Qed.

Lemma occurrences_found pat a b :
  pat ≠ "" → (1 ≤ occurrences pat (a +:+ pat +:+ b))%nat.
Proof.
  intros Hne. induction a as [| c a IH].
  - rewrite append_empty_l. destruct pat as [| c pat]; [done |].
    rewrite append_String, occurrences_String, <- append_String.
    rewrite (startswith_app _ _ b (startswith_refl _)). lia.
  - rewrite append_String, occurrences_String. lia.
Qed.

Lemma lstrip_occurrences p pat s :
  (occurrences pat (lstrip p s) ≤ occurrences pat s)%nat.
Proof.
  induction s as [| c s IH]; [done |].
  simpl lstrip. destruct (p c); [| done].
  rewrite occurrences_String. lia.
Qed.

Lemma rstrip_prefix p s : ∃ t, s = rstrip p s +:+ t.
Proof.
  induction s as [| c s [t IH]]; [by exists "" |].
  simpl. destruct (rstrip p s) as [| d r].
  - destruct (p c); [by exists (String c s) | by exists s].
  - exists t. rewrite append_String. by rewrite <- IH.
Qed.

Lemma rstrip_occurrences p pat s :
  (occurrences pat (rstrip p s) ≤ occurrences pat s)%nat.
Proof.
  destruct (rstrip_prefix p s) as [t Ht].
  rewrite Ht at 2. apply occurrences_app_le.
Qed.

Lemma strip_occurrences p pat s :
  occurrences pat s = 0 → occurrences pat (strip p s) = 0.
Proof.
  intros H. unfold strip.
  pose proof (rstrip_occurrences p pat (lstrip p s)).
  pose proof (lstrip_occurrences p pat s). lia.
Qed.
End occurrences.

(** ** The URL template: shape *)

(** A slot occurs in the template as often as in its fixed suffix, the
    base URL and the revision holding none. *)
Lemma occurrences_template pat (base r : string) :
  no_slash pat = true → pat ≠ "" →
  occurrences pat base = 0 → occurrences pat r = 0 →
  occurrences pat "blob" = 0 →
  occurrences pat (strip is_slash base +:+ "/blob/" +:+ r +:+ "/"
                   +:+ template_suffix)
    = occurrences pat template_suffix.
Proof.
  intros Hpat Hne Hbase Hr Hblob.
  change (strip is_slash base +:+ "/blob/" +:+ r +:+ "/" +:+ template_suffix)
    with (strip is_slash base
          +:+ String "/" ("blob" +:+ String "/" (r +:+ String "/" template_suffix))).
  rewrite !occurrences_app_slash by done.
  rewrite (strip_occurrences _ _ _ Hbase), Hr, Hblob. lia.
Qed.

(** C4, as the code has it.  For a base URL and a revision [r] in which
    none of the three slots occurs, [get_linkcode_url] returns the base
    URL with its leading and trailing slashes stripped, then [/blob/r/],
    then the fixed suffix; each slot occurs exactly once in it, and
    [/blob/r/] occurs. *)
Theorem get_linkcode_url_shape (git : vcs) (blob : option string)
    (context : option (gmap string pyval)) (url : option string)
    (base r : string) :
  base_url context url = Return base →
  determine_blob git blob context = Return (PyStr r) →
  slot_free base → slot_free r →
  let template :=
    strip is_slash base +:+ "/blob/" +:+ r +:+ "/" +:+ template_suffix in
  get_linkcode_url git blob context url = Return template
  ∧ occurrences "{filepath}" template = 1
  ∧ occurrences "{linestart}" template = 1
  ∧ occurrences "{linestop}" template = 1
  ∧ (1 ≤ occurrences ("/blob/" +:+ r +:+ "/") template)%nat.
Proof.
  intros Hbase Hblob (Hb1 & Hb2 & Hb3) (Hr1 & Hr2 & Hr3) template.
  split; [| split; [| split; [| split]]].
  - unfold get_linkcode_url. rewrite Hbase. simpl. rewrite Hblob. simpl.
    unfold template. by rewrite !append_assoc.
  - unfold template. by rewrite occurrences_template.
  - unfold template. by rewrite occurrences_template.
  - unfold template. by rewrite occurrences_template.
  - unfold template.
    replace (strip is_slash base +:+ "/blob/" +:+ r +:+ "/" +:+ template_suffix)
      with (strip is_slash base +:+ ("/blob/" +:+ r +:+ "/") +:+ template_suffix)
      by (by rewrite !append_assoc).
    apply occurrences_found.
    change ("/blob/" +:+ r +:+ "/") with (String "/" ("blob/" +:+ r +:+ "/")).
    discriminate.
Qed.

Lemma get_linkcode_url_shape_witness :
  get_linkcode_url tagged_repo (Some "head") None
    (Some "https://github.com/user/project/")
  = Return "https://github.com/user/project/blob/v1.0/{filepath}#L{linestart}-L{linestop}".
Proof.
  exact (proj1 (get_linkcode_url_shape tagged_repo (Some "head") None
                  (Some "https://github.com/user/project/")
                  "https://github.com/user/project/" "v1.0"
                  eq_refl eq_refl
                  (conj eq_refl (conj eq_refl eq_refl))
                  (conj eq_refl (conj eq_refl eq_refl)))).
Defined.

(** C4 as stated fails twice.  [strip("/")] also removes leading
    slashes, so a scheme-relative base URL does not give "the base URL
    with trailing slashes stripped"; and a slot written in the revision
    occurs twice in the template although the base URL holds none. *)
Lemma get_linkcode_url_shape_counterexample :
  (slot_free "//github.com/user/project"
   ∧ ∃ template,
       get_linkcode_url not_a_repository (Some "main") None
         (Some "//github.com/user/project") = Return template
       ∧ template ≠ rstrip is_slash "//github.com/user/project"
                    +:+ "/blob/main/" +:+ template_suffix)
  ∧ (slot_free "https://github.com/user/project"
     ∧ ∃ template,
         get_linkcode_url not_a_repository (Some "{filepath}") None
           (Some "https://github.com/user/project") = Return template
         ∧ occurrences "{filepath}" template = 2).
Proof.
  split; (split; [by repeat split |]); eexists; (split; [reflexivity |]).
  - discriminate.
  - reflexivity.
Qed.

(** ** One link per URL *)

Lemma objnode_links_cons (child : node) (rest : list node) :
  objnode_links (child :: rest) = signode_links child ++ objnode_links rest.
Proof. reflexivity. Qed.

Lemma signode_links_append attrs kids uri :
  signode_links (desc_signature attrs (kids ++ [source_link uri]))
    = signode_links (desc_signature attrs kids) ++ [uri].
Proof. unfold signode_links. by rewrite omap_app. Qed.

Lemma link_count_cons uri child rest :
  link_count uri (child :: rest)
    = (count_occ String.string_dec (signode_links child) uri
       + link_count uri rest)%nat.
Proof. unfold link_count. by rewrite objnode_links_cons, count_occ_app. Qed.

Lemma uri_falsy_false uri :
  uri_falsy uri = false → ∃ u, uri = Some u ∧ u ≠ "".
Proof.
  destruct uri as [u |]; [| discriminate]. simpl. intros H.
  exists u. split; [reflexivity |]. intros ->. discriminate.
Qed.

(** The loop adds a link to [uri] at most once, and never when [uri] is
    empty or already in [uris]. *)
Lemma annotate_signodes_count resolve_target domain uri children :
  ∀ uris,
    (link_count uri (annotate_signodes resolve_target domain uris children).1
     ≤ link_count uri children
       + (if bool_decide (uri ∈ uris ∨ uri = "") then 0 else 1))%nat.
Proof.
  induction children as [| child rest IH]; intros uris;
    [apply Nat.le_add_r |].
  assert (∀ uris' signode,
            (count_occ String.string_dec (signode_links signode) uri
             + (if bool_decide (uri ∈ uris' ∨ uri = "") then 0 else 1)
             ≤ count_occ String.string_dec (signode_links child) uri
               + (if bool_decide (uri ∈ uris ∨ uri = "") then 0 else 1))%nat →
            (link_count uri
               (let '(rest', e) :=
                  annotate_signodes resolve_target domain uris' rest in
                (signode :: rest', e)).1
             ≤ link_count uri (child :: rest)
               + (if bool_decide (uri ∈ uris ∨ uri = "") then 0 else 1))%nat)
    as Hcontinue.
  { intros uris' signode Hle. specialize (IH uris').
    destruct (annotate_signodes resolve_target domain uris' rest)
      as [rest' e]. simpl in *.
    rewrite !link_count_cons. lia. }
  assert (∀ signode, signode = child →
            (link_count uri
               (let '(rest', e) :=
                  annotate_signodes resolve_target domain uris rest in
                (signode :: rest', e)).1
             ≤ link_count uri (child :: rest)
               + (if bool_decide (uri ∈ uris ∨ uri = "") then 0 else 1))%nat)
    as Hsame.
  { intros signode ->. by apply Hcontinue. }
  simpl annotate_signodes.
  destruct child as [d kids | attrs kids | u i kids | t c | kids];
    try (by apply Hsame).
  destruct (decide (signode_info (domain_keys domain) attrs = ∅));
    [by apply Hsame |].
  destruct (resolve_target domain _) as [r | e]; [| simpl; lia].
  destruct (uri_falsy r) eqn:Hfalsy; [by apply Hsame |].
  apply uri_falsy_false in Hfalsy as (u & -> & Hu). simpl default.
  destruct (decide (u ∈ uris)) as [Hin | Hnotin]; [by apply Hsame |].
  apply Hcontinue. rewrite signode_links_append, count_occ_app. simpl.
  destruct (String.string_dec u uri) as [-> | Hne].
  - rewrite (bool_decide_eq_true_2 (uri ∈ {[uri]} ∪ uris ∨ uri = ""))
      by (left; apply elem_of_union_l; by apply elem_of_singleton).
    rewrite (bool_decide_eq_false_2 (uri ∈ uris ∨ uri = "")) by tauto.
    lia.
  - assert (bool_decide (uri ∈ {[u]} ∪ uris ∨ uri = "")
            = bool_decide (uri ∈ uris ∨ uri = "")) as ->.
    { apply bool_decide_ext. rewrite elem_of_union, elem_of_singleton.
      split; [intros [[? | ?] | ?] | intros [? | ?]]; auto; congruence. }
    lia.
Qed.

(** The loop keeps the links that are there. *)
Lemma annotate_signodes_keeps resolve_target domain uri children :
  ∀ uris,
    (link_count uri children
     ≤ link_count uri
         (annotate_signodes resolve_target domain uris children).1)%nat.
Proof.
  induction children as [| child rest IH]; intros uris; [done |].
  assert (∀ uris' signode,
            (count_occ String.string_dec (signode_links child) uri
             ≤ count_occ String.string_dec (signode_links signode) uri)%nat →
            (link_count uri (child :: rest)
             ≤ link_count uri
                 (let '(rest', e) :=
                    annotate_signodes resolve_target domain uris' rest in
                  (signode :: rest', e)).1)%nat) as Hcontinue.
  { intros uris' signode Hle. specialize (IH uris').
    destruct (annotate_signodes resolve_target domain uris' rest)
      as [rest' e]. simpl in *.
    rewrite !link_count_cons. lia. }
  simpl annotate_signodes.
  destruct child as [d kids | attrs kids | u i kids | t c | kids];
    try (by apply Hcontinue).
  destruct (decide (signode_info (domain_keys domain) attrs = ∅));
    [by apply Hcontinue |].
  destruct (resolve_target domain _) as [r | e]; [| done].
  destruct (uri_falsy r); [by apply Hcontinue |].
  destruct (decide (default "" r ∈ uris)); [by apply Hcontinue |].
  apply Hcontinue. rewrite signode_links_append, count_occ_app. lia.
Qed.

(** A URL no signature resolves to gets no link. *)
Lemma annotate_signodes_unresolved resolve_target domain uri children :
  (∀ signode, signode ∈ children →
              ¬ resolves_to resolve_target domain signode uri) →
  ∀ uris,
    link_count uri (annotate_signodes resolve_target domain uris children).1
      = link_count uri children.
Proof.
  induction children as [| child rest IH]; intros Hnone uris; [done |].
  assert (∀ signode, signode ∈ rest →
                     ¬ resolves_to resolve_target domain signode uri)
    as Hrest by (intros ? ?; by apply Hnone, list_elem_of_further).
  specialize (IH Hrest).
  assert (∀ uris' signode,
            count_occ String.string_dec (signode_links signode) uri
              = count_occ String.string_dec (signode_links child) uri →
            link_count uri
              (let '(rest', e) :=
                 annotate_signodes resolve_target domain uris' rest in
               (signode :: rest', e)).1
              = link_count uri (child :: rest)) as Hcontinue.
  { intros uris' signode Heq. specialize (IH uris').
    destruct (annotate_signodes resolve_target domain uris' rest)
      as [rest' e]. simpl in *.
    rewrite !link_count_cons. lia. }
  simpl annotate_signodes.
  destruct child as [d kids | attrs kids | u i kids | t c | kids];
    try (by apply Hcontinue).
  destruct (decide (signode_info (domain_keys domain) attrs = ∅)) as [| Hinfo];
    [by apply Hcontinue |].
  destruct (resolve_target domain _) as [r | e] eqn:Hr; [| done].
  destruct (uri_falsy r) eqn:Hfalsy; [by apply Hcontinue |].
  apply uri_falsy_false in Hfalsy as (u & -> & Hu). simpl default.
  destruct (decide (u ∈ uris)); [by apply Hcontinue |].
  apply Hcontinue. rewrite signode_links_append, count_occ_app. simpl.
  destruct (String.string_dec u uri) as [-> | Hdiff]; [| lia].
  exfalso. apply (Hnone (desc_signature attrs kids));
    [apply list_elem_of_here | by exists attrs, kids].
Qed.

(** When the loop runs to its end, a URL some signature resolves to has
    its link, unless it is empty or was given before the loop. *)
Lemma annotate_signodes_attaches resolve_target domain uri children :
  uri ≠ "" →
  ∀ uris,
    uri ∉ uris →
    (annotate_signodes resolve_target domain uris children).2 = None →
    (∃ signode, signode ∈ children
                ∧ resolves_to resolve_target domain signode uri) →
    link_count uri (annotate_signodes resolve_target domain uris children).1
      = (link_count uri children + 1)%nat.
Proof.
  intros Hne.
  induction children as [| child rest IH]; intros uris Hnotin Hend Hsome.
  { destruct Hsome as (signode & Hin & _). by apply elem_of_nil in Hin. }
  assert (resolves_to resolve_target domain child uri
          ∨ (¬ resolves_to resolve_target domain child uri
             ∧ ∃ signode, signode ∈ rest
                          ∧ resolves_to resolve_target domain signode uri))
    as Hcases.
  { destruct Hsome as (signode & Hin & Hres).
    apply elem_of_cons in Hin as [-> | Hin]; [by left |].
    destruct child as [d kids | attrs kids | u i kids | t c | kids];
      try (right; split; [by intros (? & ? & ? & _) | by eauto]).
    destruct (decide (signode_info (domain_keys domain) attrs = ∅)) as [He |];
      [right; split; [| by eauto];
       intros (? & ? & [= <- <-] & Hinfo & _); by apply Hinfo |].
    destruct (resolve_target domain (signode_info (domain_keys domain) attrs))
      as [[u |] | e] eqn:Hr;
      try (right; split; [| by eauto];
           intros (? & ? & [= <- <-] & _ & Hr'); congruence).
    destruct (decide (u = uri)) as [-> | Hu].
    - left. by exists attrs, kids.
    - right. split; [| by eauto].
      intros (? & ? & [= <- <-] & _ & Hr'). congruence. }
  revert Hend. simpl annotate_signodes.
  pose proof (annotate_signodes_count resolve_target domain uri rest) as Hup.
  pose proof (annotate_signodes_keeps resolve_target domain uri rest) as Hlow.
  destruct Hcases as [(attrs & kids & -> & Hinfo & Hr) | [Hnot Hrest]].
  - destruct (decide (signode_info (domain_keys domain) attrs = ∅));
      [contradiction |].
    rewrite Hr. simpl.
    destruct (String.eqb_spec uri ""); [contradiction |].
    destruct (decide (uri ∈ uris)); [contradiction |].
    specialize (Hup ({[uri]} ∪ uris)). specialize (Hlow ({[uri]} ∪ uris)).
    rewrite (bool_decide_eq_true_2 (uri ∈ {[uri]} ∪ uris ∨ uri = "")) in Hup
      by (left; apply elem_of_union_l; by apply elem_of_singleton).
    destruct (annotate_signodes resolve_target domain _ rest) as [rest' e'].
    simpl in *. intros _.
    rewrite !link_count_cons, signode_links_append, count_occ_app. simpl.
    destruct (String.string_dec uri uri); [lia | contradiction].
  - assert (∀ uris',
              uri ∉ uris' →
              (let '(rest', e) :=
                 annotate_signodes resolve_target domain uris' rest in
               (child :: rest', e)).2 = None →
              link_count uri
                (let '(rest', e) :=
                   annotate_signodes resolve_target domain uris' rest in
                 (child :: rest', e)).1
                = (link_count uri (child :: rest) + 1)%nat) as Hskip.
    { intros uris' Hnotin' Hend. specialize (IH uris' Hnotin').
      destruct (annotate_signodes resolve_target domain uris' rest)
        as [rest' e']. simpl in *.
      rewrite !link_count_cons, (IH Hend Hrest). lia. }
    destruct child as [d kids | attrs kids | u i kids | t c | kids];
      try (by apply Hskip).
    destruct (decide (signode_info (domain_keys domain) attrs = ∅)) as [| Hinfo];
      [by apply Hskip |].
    destruct (resolve_target domain _) as [r | e] eqn:Hr; [| discriminate].
    destruct (uri_falsy r) eqn:Hfalsy; [by apply Hskip |].
    apply uri_falsy_false in Hfalsy as (u & -> & Hu). simpl default.
    destruct (decide (u ∈ uris)); [by apply Hskip |].
    assert (u ≠ uri) as Hdiff.
    { intros ->. apply Hnot. by exists attrs, kids. }
    assert (uri ∉ ({[u]} ∪ uris : gset string)) as Hnotin'.
    { rewrite elem_of_union, elem_of_singleton.
      intros [? | ?]; [congruence | contradiction]. }
    specialize (IH _ Hnotin').
    destruct (annotate_signodes resolve_target domain _ rest) as [rest' e'].
    simpl in *. intros Hend.
    rewrite !link_count_cons, signode_links_append, count_occ_app.
    rewrite (IH Hend Hrest). simpl.
    destruct (String.string_dec u uri); [contradiction | lia].
Qed.

(** C8. Processing a [desc] node adds, for every URL, at most one
    link to that URL under the signatures of the node; the links that
    were there stay.  No link is added to the empty URL, nor to a URL
    that no signature resolves to, so an answer [None] or [''] of the
    resolver leaves no link.  Two signatures that resolve to the same
    URL get one link between them: when the loop ends without
    exception, a non-empty URL that any signature of the node resolves
    to has gained exactly one link. *)
Theorem process_objnode_one_link_per_uri (resolve_target : resolver)
    (domain : string) (children : list node) (uri : string) :
  let result := process_objnode resolve_target (desc domain children) in
  let children' := node_children result.1 in
  (link_count uri children' ≤ link_count uri children + 1)%nat
  ∧ (link_count uri children ≤ link_count uri children')%nat
  ∧ link_count "" children' = link_count "" children
  ∧ ((∀ signode, signode ∈ children →
                 ¬ resolves_to resolve_target domain signode uri) →
     link_count uri children' = link_count uri children)
  ∧ (result.2 = None → uri ≠ "" →
     (∃ signode, signode ∈ children
                 ∧ resolves_to resolve_target domain signode uri) →
     link_count uri children' = (link_count uri children + 1)%nat).
Proof.
  intros result children'. subst children' result. unfold process_objnode.
  pose proof (annotate_signodes_count resolve_target domain uri children ∅)
    as Hup.
  pose proof (annotate_signodes_keeps resolve_target domain uri children ∅)
    as Hlow.
  pose proof (annotate_signodes_count resolve_target domain "" children ∅)
    as Hup0.
  pose proof (annotate_signodes_keeps resolve_target domain "" children ∅)
    as Hlow0.
  pose proof (λ Hne, annotate_signodes_attaches resolve_target domain uri
                children Hne ∅ (not_elem_of_empty uri)) as Hattach.
  pose proof (λ Hnone, annotate_signodes_unresolved resolve_target domain uri
                children Hnone ∅) as Hunresolved.
  rewrite (bool_decide_eq_true_2 ("" ∈ (∅ : gset string) ∨ "" = ""))
    in Hup0 by (by right).
  destruct (annotate_signodes resolve_target domain ∅ children)
    as [children' e].
  simpl in *. split; [| split; [| split; [| split]]].
  - destruct (bool_decide _); lia.
  - exact Hlow.
  - lia.
  - exact Hunresolved.
  - intros Hnone Hne Hsome.
    exact (Hattach Hne Hnone Hsome).
Qed.

Lemma process_objnode_one_link_per_uri_witness :
  link_count example_uri
    (node_children (process_objnode example_resolver example_objnode).1) = 1.
Proof.
  refine (proj2 (proj2 (proj2 (proj2 (process_objnode_one_link_per_uri
            example_resolver "py" example_children example_uri))))
          eq_refl _ _); [discriminate |].
  exists (desc_signature
            {[ "module" := "pkg.mod"; "fullname" := "ClassName.method_name" ]}
            [inline "method_name(x)" []]).
  split; [apply list_elem_of_here |].
  eexists _, _. split; [reflexivity |]. split; [| reflexivity].
  intros H. apply (f_equal (lookup "module")) in H. discriminate H.
Defined.

(** The two signatures of the example: the first gets the link, the
    second, which resolves to the same URL, is left as it was. *)
Example process_objnode_example :
  process_objnode example_resolver example_objnode
  = (desc "py"
       [desc_signature
          {[ "module" := "pkg.mod"; "fullname" := "ClassName.method_name" ]}
          [inline "method_name(x)" []; source_link example_uri];
        desc_signature
          {[ "module" := "pkg.mod"; "fullname" := "ClassName.method_name" ]}
          [inline "method_name(x, y)" []];
        element [inline "Looks a value up." []]],
     None).
Proof. vm_compute. reflexivity. Qed.

(** The whole document: each [desc] node found is processed, the nested
    one of domain ['js'] gets no link from the default resolver; without
    a callable resolver the tree is left alone. *)
Example doctree_read_example :
  doctree_read (Some example_resolver) example_doctree
  = (element
       [(process_objnode example_resolver example_objnode).1;
        desc "py"
          [desc_signature
             {[ "module" := "pkg.mod"; "fullname" := "ClassName.size" ]}
             [inline "size" [];
              source_link
                "https://github.com/user/project/blob/v1.0/pkg/mod.py#L20-L22"];
           element
             [desc "js"
                [desc_signature {[ "object" := "Widget" ]}
                                [inline "Widget.size" []]]]]],
     None)
  ∧ doctree_read None example_doctree
    = (example_doctree,
       Some (LinkcodeError
               "Function `linkcode_resolve` is not given in conf.py")).
Proof. split; [vm_compute; reflexivity | reflexivity]. Qed.

(** ** The keywords of the lexer *)

(** [isfunction or ismethod] is [isfunction]. *)
Lemma isfunction_or_ismethod {Obj} (rt : runtime Obj) :
  py_or function_truth (isfunction rt) (ismethod rt) = isfunction rt.
Proof. reflexivity. Qed.

Lemma dict_keys_elem {Obj} (members : list (string * Obj)) name :
  ∀ seen, name ∈ dict_keys seen members
          ↔ ((name ∉ seen) ∧ ∃ value, (name, value) ∈ members).
Proof.
  induction members as [| [k v] rest IH]; intros seen; simpl.
  - split; [by intros ?%elem_of_nil |].
    intros (_ & value & ?%elem_of_nil). done.
  - destruct (decide (k ∈ seen)) as [Hk | Hk].
    + rewrite IH. split.
      * intros (Hn & value & Hin). split; [done |].
        exists value. by apply list_elem_of_further.
      * intros (Hn & value & Hin). split; [done |].
        apply elem_of_cons in Hin as [[= -> ->] | Hin]; [done | by eauto].
    + rewrite elem_of_cons, IH. split.
      * intros [-> | (Hn & value & Hin)].
        -- split; [done |]. exists v. apply list_elem_of_here.
        -- split; [by intros ?; apply Hn, list_elem_of_further |].
           exists value. by apply list_elem_of_further.
      * intros (Hn & value & Hin).
        destruct (decide (name = k)) as [-> | Hne]; [by left |].
        right. split.
        -- by intros [? | ?]%elem_of_cons.
        -- apply elem_of_cons in Hin as [[= -> ->] | Hin]; [done | by eauto].
Qed.

(** [get_funcs] lists the members that [isfunction] accepts, and only
    those. *)
Lemma get_funcs_elem {Obj} (rt : runtime Obj) (o : Obj) name :
  name ∈ get_funcs rt o
  ↔ ∃ value, (name, value) ∈ getmembers_all rt o
             ∧ isfunction rt value = true.
Proof.
  unfold get_funcs. rewrite isfunction_or_ismethod, dict_keys_elem.
  unfold getmembers. split.
  - intros (_ & value & Hin). apply list_elem_of_filter in Hin as [? ?].
    by exists value.
  - intros (value & Hin & Hf). split; [apply not_elem_of_nil |].
    exists value. by apply list_elem_of_filter.
Qed.

Lemma foldl_app_elem {A} (f : A → list string) (l : list A) name :
  ∀ acc, name ∈ foldl (λ acc a, acc ++ f a) acc l
         ↔ name ∈ acc ∨ ∃ a, a ∈ l ∧ name ∈ f a.
Proof.
  induction l as [| x l IH]; intros acc; simpl.
  - split; [by left | intros [? | (a & ?%elem_of_nil & _)]; done].
  - rewrite IH, elem_of_app. split.
    + intros [[? | ?] | (a & Hin & ?)]; [by left | right | right].
      * exists x. split; [apply list_elem_of_here | done].
      * exists a. split; [by apply list_elem_of_further | done].
    + intros [? | (a & Hin & ?)]; [by left; left |].
      apply elem_of_cons in Hin as [-> | Hin]; [by left; right | by eauto].
Qed.

(** The names [get_pkg_funcs] collects: the function members of the
    package, of its module members, and of the class members of those
    modules. *)
Lemma get_pkg_funcs_elem {Obj} (rt : runtime Obj) (pkg : Obj) name :
  name ∈ get_pkg_funcs rt pkg
  ↔ name ∈ get_funcs rt pkg
    ∨ ∃ m, m ∈ getmembers rt pkg (ismodule rt)
           ∧ (name ∈ get_funcs rt m.2
              ∨ ∃ c, c ∈ getmembers rt m.2 (isclass rt)
                     ∧ name ∈ get_funcs rt c.2).
Proof.
  unfold get_pkg_funcs. rewrite elem_of_list_to_set.
  generalize (get_funcs rt pkg) as acc.
  induction (getmembers rt pkg (ismodule rt)) as [| m ms IH]; intros acc;
    simpl.
  - split; [by left | intros [? | (m & ?%elem_of_nil & _)]; done].
  - rewrite IH, (foldl_app_elem (λ c, get_funcs rt c.2)), elem_of_app.
    split.
    + intros [[[? | ?] | (c & Hc & ?)] | (m' & Hin & Hm')].
      * by left.
      * right. exists m. split; [apply list_elem_of_here | by left].
      * right. exists m. split; [apply list_elem_of_here | by eauto].
      * right. exists m'. split; [by apply list_elem_of_further | done].
    + intros [? | (m' & Hin & Hm')]; [by left; left; left |].
      apply elem_of_cons in Hin as [-> | Hin]; [| by eauto].
      destruct Hm' as [? | (c & Hc & ?)]; [by left; left; right |].
      left. right. by eauto.
Qed.

(** C9, at the example package.  [ClassName.from_json] is a class
    method: [inspect.getmembers] lists it and [ismethod] accepts it, but
    the predicate [isfunction or ismethod] is [isfunction] alone, so
    its name is not among the extra keywords of the lexer, while the
    plain functions [helper] and [method_name] are. *)
Theorem get_pkg_lexer_misses_methods (cls : TDKMethLexer) :
  ∃ lexer,
    get_pkg_lexer example_runtime cls "pkg" = Return lexer
    ∧ ("from_json", o_from_json) ∈ getmembers_all example_runtime o_ClassName
    ∧ ismethod example_runtime o_from_json = true
    ∧ ("from_json" ∉ EXTRA_KEYWORDS lexer)
    ∧ "helper" ∈ EXTRA_KEYWORDS lexer
    ∧ "method_name" ∈ EXTRA_KEYWORDS lexer.
Proof.
  eexists. split; [reflexivity |]. simpl EXTRA_KEYWORDS.
  split; [apply list_elem_of_here |]. split; [reflexivity |].
  assert (get_pkg_funcs example_runtime o_pkg
          = list_to_set ["helper"; "method_name"]) as -> by reflexivity.
  rewrite !elem_of_list_to_set, !elem_of_cons, !elem_of_nil.
  split; [| split].
  - intros [? | [? | []]]; discriminate.
  - by left.
  - by right; left.
Qed.

(** What the lexer does pick up: every member that [isfunction] accepts,
    on the package, on its module members and on the classes of those
    modules. *)
Lemma function_names_are_keywords {Obj} (rt : runtime Obj) (pkg : Obj)
    (name : string) (f : Obj) :
  isfunction rt f = true →
  ((name, f) ∈ getmembers_all rt pkg
   ∨ ∃ mname m,
       (mname, m) ∈ getmembers_all rt pkg ∧ ismodule rt m = true
       ∧ ((name, f) ∈ getmembers_all rt m
          ∨ ∃ cname c,
              (cname, c) ∈ getmembers_all rt m ∧ isclass rt c = true
              ∧ (name, f) ∈ getmembers_all rt c)) →
  name ∈ get_pkg_funcs rt pkg.
Proof.
  intros Hf Hwhere. rewrite get_pkg_funcs_elem, !get_funcs_elem.
  destruct Hwhere as [Hin | (mname & m & Hm & Hmod & Hin)]; [by eauto |].
  right. exists (mname, m). split.
  { unfold getmembers. by apply list_elem_of_filter. }
  simpl. rewrite get_funcs_elem.
  destruct Hin as [Hin | (cname & c & Hc & Hcls & Hin)]; [by eauto |].
  right. exists (cname, c). split.
  { unfold getmembers. by apply list_elem_of_filter. }
  simpl. rewrite get_funcs_elem. by eauto.
Qed.

(** * Further properties *)

(** ** Resolving the revision *)

Lemma eqb_neq_false (a b : string) : a ≠ b → String.eqb a b = false.
Proof. intros H. by destruct (String.eqb_spec a b). Qed.

(** A ref that is not a mode name is the revision as it stands,
    whatever the repository: [git] is not asked, and resolving a
    revision that is already resolved, as [get_linkcode_url] does with
    the [blob] it is given, changes nothing. *)
Theorem get_linkcode_revision_explicit (git : vcs) (blob : string) :
  blob ≠ "head" → blob ≠ "last_tag" →
  get_linkcode_revision git blob = Return blob
  ∧ (get_linkcode_revision git blob ≫= get_linkcode_revision git)
    = Return blob.
Proof.
  intros Hhead Htag.
  assert (get_linkcode_revision git blob = Return blob) as H.
  { unfold get_linkcode_revision.
    by rewrite (eqb_neq_false _ _ Hhead), (eqb_neq_false _ _ Htag). }
  split; [exact H |]. rewrite H. exact H.
Qed.

Lemma get_linkcode_revision_explicit_witness :
  get_linkcode_revision not_a_repository "v2.0.1" = Return "v2.0.1"
  ∧ (get_linkcode_revision not_a_repository "v2.0.1"
     ≫= get_linkcode_revision not_a_repository) = Return "v2.0.1".
Proof.
  apply (get_linkcode_revision_explicit not_a_repository "v2.0.1");
    discriminate.
Defined.

(** The failure status of [git] never leaves [get_linkcode_revision]
    as the [CalledProcessError] it starts as: mode ["head"] turns it
    into a result, mode ["last_tag"] into an [ExtensionError].  That
    [ExtensionError] is the only one raised, and only in mode
    ["last_tag"] with [git describe --tags] exiting with a failure
    status. *)
Theorem get_linkcode_revision_git_failure (git : vcs) (blob : string) :
  (∀ rc cmd, get_linkcode_revision git blob ≠ Raise (CalledProcessError rc cmd))
  ∧ (∀ message,
       get_linkcode_revision git blob = Raise (ExtensionError message) →
       blob = "last_tag"
       ∧ message = "``sphinx-github-style``: no tags found on current branch"
       ∧ ∃ rc, git describe_last_tag_cmd = ExitedNonZero rc).
Proof.
  unfold get_linkcode_revision.
  destruct (String.eqb_spec blob "head") as [-> | Hhead].
  - unfold get_head, check_output_stripped, check_output.
    destruct (git log_head_cmd); simpl; [| split; intros; discriminate].
    destruct (git (describe_exact_cmd _)); split; intros; discriminate.
  - destruct (String.eqb_spec blob "last_tag") as [-> | Htag];
      [| split; intros; discriminate].
    unfold get_last_tag, check_output_stripped, check_output.
    destruct (git describe_last_tag_cmd) as [out | rc]; simpl;
      [split; intros; discriminate |].
    split; [intros; discriminate |].
    intros message [= <-]. by eauto.
Qed.

Lemma get_linkcode_revision_git_failure_witness :
  ("last_tag" : string) = "last_tag"
  ∧ ("``sphinx-github-style``: no tags found on current branch" : string)
    = "``sphinx-github-style``: no tags found on current branch"
  ∧ ∃ rc, untagged_repo describe_last_tag_cmd = ExitedNonZero rc.
Proof.
  exact (proj2 (get_linkcode_revision_git_failure untagged_repo "last_tag")
           _ eq_refl).
Defined.

(** Stripping twice is stripping once. *)
Lemma rstrip_idem p (s : string) : rstrip p (rstrip p s) = rstrip p s.
Proof.
  induction s as [| c s IH]; [reflexivity |].
  simpl. destruct (rstrip p s) as [| d r] eqn:Hr.
  - destruct (p c) eqn:Hc; [reflexivity |]. simpl. by rewrite Hc.
  - change (rstrip p (String c (String d r))) with
      (match rstrip p (String d r) with
       | EmptyString => if p c then EmptyString else String c EmptyString
       | r' => String c r'
       end).
    by rewrite IH.
Qed.

Lemma lstrip_idem p (s : string) : lstrip p (lstrip p s) = lstrip p s.
Proof.
  induction s as [| c s IH]; [reflexivity |].
  simpl. destruct (p c) eqn:Hc; [exact IH |]. simpl. by rewrite Hc.
Qed.

Lemma lstrip_rstrip p (t : string) :
  lstrip p t = t → lstrip p (rstrip p t) = rstrip p t.
Proof.
  destruct t as [| c t]; [reflexivity |].
  simpl. destruct (p c) eqn:Hc.
  - intros H. exfalso.
    assert (String.length (lstrip p t) ≤ String.length t)%nat as Hlen.
    { clear. induction t as [| d t IH]; simpl; [lia |].
      destruct (p d); simpl; lia. }
    rewrite H in Hlen. simpl in Hlen. lia.
  - intros _. destruct (rstrip p t); simpl; by rewrite Hc.
Qed.

Lemma lstrip_rstrip_lstrip p (s : string) :
  lstrip p (rstrip p (lstrip p s)) = rstrip p (lstrip p s).
Proof. apply lstrip_rstrip, lstrip_idem. Qed.

Lemma strip_idem p (s : string) : strip p (strip p s) = strip p s.
Proof.
  unfold strip. by rewrite lstrip_rstrip_lstrip, rstrip_idem.
Qed.

(** In the two modes that ask [git], the revision comes without the
    white space around [git]'s output, the newline at its end in
    particular: stripping it again changes nothing. *)
Theorem get_linkcode_revision_stripped (git : vcs) (blob r : string) :
  blob = "head" ∨ blob = "last_tag" →
  get_linkcode_revision git blob = Return r →
  strip is_whitespace r = r.
Proof.
  unfold get_linkcode_revision, get_head, get_last_tag,
    check_output_stripped, check_output.
  intros [-> | ->]; simpl.
  - destruct (git log_head_cmd) as [out |]; simpl;
      [| by intros [= <-]].
    destruct (git (describe_exact_cmd _)) as [tag |]; simpl;
      intros [= <-]; apply strip_idem.
  - destruct (git describe_last_tag_cmd) as [tag |]; simpl;
      [| discriminate].
    intros [= <-]. apply strip_idem.
Qed.

Lemma get_linkcode_revision_stripped_witness :
  strip is_whitespace example_hash = example_hash.
Proof.
  exact (get_linkcode_revision_stripped untagged_repo "head" example_hash
           (or_introl eq_refl) eq_refl).
Defined.

(** ** The URL template: where base and revision come from *)

(** Without a URL, and without both ['github_user'] and ['github_repo']
    in the context, the call fails on the missing URL before the
    revision is looked at: whatever [blob] is and whatever [git]
    answers. *)
Theorem get_linkcode_url_missing_url (git : vcs) (blob : option string)
    (context : option (gmap string pyval)) :
  match context with
  | None => True
  | Some ctx => all_truthy ctx ["github_user"; "github_repo"] = false
  end →
  get_linkcode_url git blob context None
    = Raise (ExtensionError
        "sphinx-github-style: config value ``linkcode_url`` is missing").
Proof.
  unfold get_linkcode_url, base_url.
  destruct context as [ctx |]; [| reflexivity].
  by intros ->.
Qed.

Lemma get_linkcode_url_missing_url_witness :
  get_linkcode_url not_a_repository (Some "last_tag")
    (Some {[ "github_user" := PyStr "user"; "github_repo" := PyStr "" ]}) None
    = Raise (ExtensionError
        "sphinx-github-style: config value ``linkcode_url`` is missing").
Proof.
  exact (get_linkcode_url_missing_url not_a_repository (Some "last_tag")
           (Some {[ "github_user" := PyStr "user"; "github_repo" := PyStr "" ]})
           eq_refl).
Defined.

Lemma dict_get_truthy_str ctx key :
  truthy (dict_get ctx key) = true →
  ∃ s, ctx !! key = Some (PyStr s) ∧ s ≠ "".
Proof.
  unfold dict_get. destruct (ctx !! key) as [[| s] |]; try discriminate.
  simpl. intros H. exists s. split; [reflexivity |].
  intros ->. discriminate.
Qed.

(** Without a URL, a context with a user and a repository gives the
    GitHub URL of that repository as base, for whatever revision is
    determined. *)
Theorem get_linkcode_url_from_context (git : vcs) (blob : option string)
    (ctx : gmap string pyval) (r : string) :
  all_truthy ctx ["github_user"; "github_repo"] = true →
  determine_blob git blob (Some ctx) = Return (PyStr r) →
  ∃ user repo,
    ctx !! "github_user" = Some (PyStr user)
    ∧ ctx !! "github_repo" = Some (PyStr repo)
    ∧ get_linkcode_url git blob (Some ctx) None
      = Return (strip is_slash ("https://github.com/" +:+ user +:+ "/" +:+ repo)
                +:+ "/blob/" +:+ r +:+ "/" +:+ template_suffix).
Proof.
  intros Hall Hblob. pose proof Hall as Hall'.
  unfold all_truthy in Hall'. simpl in Hall'.
  apply andb_true_iff in Hall' as [Huser Hrepo].
  apply andb_true_iff in Hrepo as [Hrepo _].
  apply dict_get_truthy_str in Huser as (user & Huser & _).
  apply dict_get_truthy_str in Hrepo as (repo & Hrepo & _).
  exists user, repo. split; [done |]. split; [done |].
  unfold get_linkcode_url, base_url, dict_item.
  rewrite Hall, Huser, Hrepo. simpl. rewrite Hblob. simpl.
  by rewrite !append_assoc.
Qed.

Lemma get_linkcode_url_from_context_witness :
  ∃ user repo,
    ({[ "github_user" := PyStr "user"; "github_repo" := PyStr "project" ]}
       : gmap string pyval) !! "github_user" = Some (PyStr user)
    ∧ ({[ "github_user" := PyStr "user"; "github_repo" := PyStr "project" ]}
         : gmap string pyval) !! "github_repo" = Some (PyStr repo)
    ∧ get_linkcode_url tagged_repo (Some "head")
        (Some {[ "github_user" := PyStr "user";
                 "github_repo" := PyStr "project" ]}) None
      = Return (strip is_slash ("https://github.com/" +:+ user +:+ "/" +:+ repo)
                +:+ "/blob/" +:+ "v1.0" +:+ "/" +:+ template_suffix).
Proof.
  exact (get_linkcode_url_from_context tagged_repo (Some "head")
           {[ "github_user" := PyStr "user"; "github_repo" := PyStr "project" ]}
           "v1.0" eq_refl eq_refl).
Defined.

Lemma get_linkcode_url_explicit_template (git : vcs) (blob url : string)
    (context : option (gmap string pyval)) :
  blob ≠ "" → blob ≠ "head" → blob ≠ "last_tag" →
  get_linkcode_url git (Some blob) context (Some url)
    = Return (strip is_slash url +:+ "/blob/" +:+ blob +:+ "/"
              +:+ template_suffix).
Proof.
  intros Hne Hhead Htag.
  unfold get_linkcode_url, determine_blob, get_linkcode_revision. simpl.
  rewrite (eqb_neq_false _ _ Hne), (eqb_neq_false _ _ Hhead),
    (eqb_neq_false _ _ Htag). simpl.
  by rewrite !append_assoc.
Qed.

(** With a URL and an explicit ref nothing else is consulted: the
    template is the same for every repository state and every context,
    a missing context included. *)
Theorem get_linkcode_url_explicit (git : vcs) (blob url : string)
    (context : option (gmap string pyval)) :
  blob ≠ "" → blob ≠ "head" → blob ≠ "last_tag" →
  get_linkcode_url git (Some blob) context (Some url)
    = Return (strip is_slash url +:+ "/blob/" +:+ blob +:+ "/"
              +:+ template_suffix).
Proof. apply get_linkcode_url_explicit_template. Qed.

Lemma get_linkcode_url_explicit_witness :
  get_linkcode_url not_a_repository (Some "main") None
    (Some "https://github.com/user/project/")
  = Return "https://github.com/user/project/blob/main/{filepath}#L{linestart}-L{linestop}".
Proof.
  apply (get_linkcode_url_explicit not_a_repository "main"
           "https://github.com/user/project/" None); discriminate.
Defined.

(** With a falsy [blob], the revision is the ['github_version'] of the
    context as it stands, [git] not being asked; only [None] is turned
    down, so an empty string gives a template with an empty revision,
    [.../blob//...]. *)
Theorem get_linkcode_url_github_version (git : vcs) (blob : option string)
    (ctx : gmap string pyval) (url version : string) :
  blob_truthy blob = false →
  ctx !! "github_version" = Some (PyStr version) →
  get_linkcode_url git blob (Some ctx) (Some url)
    = Return (strip is_slash url +:+ "/blob/" +:+ version +:+ "/"
              +:+ template_suffix).
Proof.
  intros Hblob Hversion.
  unfold get_linkcode_url, determine_blob, dict_get. simpl.
  rewrite Hblob, Hversion. simpl. by rewrite !append_assoc.
Qed.

Lemma get_linkcode_url_github_version_witness :
  get_linkcode_url not_a_repository (Some "")
    (Some {[ "github_version" := PyStr "" ]})
    (Some "https://github.com/user/project")
  = Return "https://github.com/user/project/blob//{filepath}#L{linestart}-L{linestop}".
Proof.
  exact (get_linkcode_url_github_version not_a_repository (Some "")
           {[ "github_version" := PyStr "" ]}
           "https://github.com/user/project" "" eq_refl eq_refl).
Defined.

(** ** The resolver and the code around it *)

Lemma no_braces_lstrip p (s : string) :
  no_braces s = true → no_braces (lstrip p s) = true.
Proof.
  induction s as [| c s IH]; [done |].
  intros H. simpl. destruct (p c); [| exact H].
  simpl in H. apply andb_true_iff in H as [_ H]. by apply IH.
Qed.

Lemma no_braces_rstrip p (s : string) :
  no_braces s = true → no_braces (rstrip p s) = true.
Proof.
  destruct (rstrip_prefix p s) as [t Ht]. intros H.
  rewrite Ht, no_braces_app in H. by apply andb_true_iff in H as [H _].
Qed.

Lemma no_braces_strip p (s : string) :
  no_braces s = true → no_braces (strip p s) = true.
Proof. intros H. by apply no_braces_rstrip, no_braces_lstrip. Qed.

(** From configuration to link.  The template [get_linkcode_url]
    builds from a base URL and a revision without braces always renders:
    a symbol of domain ['py'] found in a file under [repo_dir] gets the
    link [<base>/blob/<revision>/<path>#L<first>-L<last>], the base
    without the slashes around it. *)
Theorem linkcode_resolve_with_built_template {Obj} (rt : runtime Obj)
    (git : vcs) (blob : option string) (context : option (gmap string pyval))
    (url : option string) (base r : string)
    (repo_dir : Path) (info : info_dict)
    (m f : string) (submod obj o : Obj) (modpath : string) (filepath : Path)
    (source : list string) (L : Z) :
  base_url context url = Return base →
  determine_blob git blob context = Return (PyStr r) →
  no_braces base = true → no_braces r = true →
  info !! "module" = Some m → m ≠ "" → info !! "fullname" = Some f →
  sys_modules rt m = Some submod →
  getattr_chain rt submod (split_on "." f) = Return (Some obj) →
  unwrap rt (unwrap_accessor rt obj) = Some o →
  getsourcefile rt o = Some modpath →
  relative_to (Path_of_str modpath) repo_dir = Return filepath →
  getsourcelines rt (unwrap_accessor rt obj) = Some (source, L) →
  ∃ template,
    get_linkcode_url git blob context url = Return template
    ∧ linkcode_resolve rt template repo_dir "py" info
      = Return (Some (strip is_slash base +:+ "/blob/" +:+ r +:+ "/"
                      +:+ as_posix filepath
                      +:+ "#L" +:+ str_of_int L
                      +:+ "-L" +:+ str_of_int
                                     (L + Z.of_nat (length source) - 1))).
Proof.
  intros Hbase Hblob Hnb Hnr Hm Hne Hf Hmod Hattr Hun Hfile Hrel Hlines.
  exists (strip is_slash base +:+ "/blob/" +:+ r +:+ "/" +:+ template_suffix).
  split.
  - unfold get_linkcode_url. rewrite Hbase. simpl. rewrite Hblob. simpl.
    by rewrite !append_assoc.
  - rewrite (linkcode_resolve_fields rt _ _ _ _ m f Hm Hne Hf). simpl.
    unfold resolve_symbol, source_filepath.
    rewrite Hmod, Hattr. simpl. rewrite Hun. simpl. rewrite Hfile. simpl.
    rewrite Hrel, Hlines.
    pose proof (str_format_canonical (strip is_slash base) r filepath L
                  (L + Z.of_nat (length source) - 1)%Z
                  (no_braces_strip _ _ Hnb) Hnr) as Hfmt.
    unfold link_kwargs in Hfmt. by rewrite Hfmt.
Qed.

Lemma linkcode_resolve_with_built_template_witness :
  ∃ template,
    get_linkcode_url tagged_repo (Some "head") None
      (Some "https://github.com/user/project/") = Return template
    ∧ linkcode_resolve example_runtime template example_repo_dir "py"
        example_info
      = Return (Some example_uri).
Proof.
  refine (linkcode_resolve_with_built_template example_runtime tagged_repo
            (Some "head") None (Some "https://github.com/user/project/")
            "https://github.com/user/project/" "v1.0"
            example_repo_dir example_info "pkg.mod" "ClassName.method_name"
            o_pkg_mod o_method_name o_method_name
            "/home/user/project/pkg/mod.py"
            {| absolute := false; parts := ["pkg"; "mod.py"] |}
            _ 10%Z eq_refl eq_refl eq_refl eq_refl eq_refl _ eq_refl eq_refl
            eq_refl eq_refl eq_refl eq_refl eq_refl).
  discriminate.
Defined.

(** An empty module name stops at the gate: "no link" in every domain,
    with or without a ['fullname'], and without a look at the running
    program. *)
Theorem linkcode_resolve_empty_module {Obj} (rt : runtime Obj)
    (linkcode_url : string) (repo_dir : Path) (domain : string)
    (info : info_dict) :
  info !! "module" = Some "" →
  linkcode_resolve rt linkcode_url repo_dir domain info = Return None.
Proof.
  intros Hm. unfold linkcode_resolve, info_item.
  destruct (String.eqb domain "py"); simpl; [| reflexivity].
  by rewrite Hm.
Qed.

Lemma linkcode_resolve_empty_module_witness :
  linkcode_resolve example_runtime "{broken" example_repo_dir "py"
    {[ "module" := "" ]} = Return None.
Proof.
  exact (linkcode_resolve_empty_module example_runtime "{broken"
           example_repo_dir "py" {[ "module" := "" ]} eq_refl).
Defined.

Lemma linkcode_resolve_signode_info {Obj} (rt : runtime Obj)
    (linkcode_url : string) (repo_dir : Path) (domain : string)
    (attrs : gmap string string) :
  linkcode_resolve rt linkcode_url repo_dir domain
    (signode_info (domain_keys domain) attrs)
  = if String.eqb domain "py"
       && negb (String.eqb (default "" (attrs !! "module")) "")
    then resolve_symbol rt linkcode_url repo_dir
           (default "" (attrs !! "module")) (default "" (attrs !! "fullname"))
    else Return None.
Proof.
  unfold linkcode_resolve.
  destruct (String.eqb_spec domain "py") as [-> | Hd]; simpl; [| reflexivity].
  assert (signode_info (domain_keys "py") attrs !! "module"
          = Some (default "" (attrs !! "module")))
    as Hm by (unfold signode_info; simpl; by simplify_map_eq).
  assert (signode_info (domain_keys "py") attrs !! "fullname"
          = Some (default "" (attrs !! "fullname")))
    as Hf by (unfold signode_info; simpl; by simplify_map_eq).
  unfold info_item. rewrite Hm. simpl.
  destruct (String.eqb (default "" (attrs !! "module")) ""); simpl;
    [reflexivity |].
  by rewrite Hf.
Qed.

(** The dictionaries [doctree_read] builds never trip the unguarded
    reads of [linkcode_resolve]: every key of the domain is filled in,
    with [''] for a missing attribute.  On such a dictionary the
    resolver goes on to the lookup exactly when the domain is ['py'] and
    the signature has a non-empty ['module'], and answers "no link"
    otherwise. *)
Theorem linkcode_resolve_on_signode_info {Obj} (rt : runtime Obj)
    (linkcode_url : string) (repo_dir : Path) (domain : string)
    (attrs : gmap string string) :
  let module := default "" (attrs !! "module") in
  let fullname := default "" (attrs !! "fullname") in
  linkcode_resolve rt linkcode_url repo_dir domain
    (signode_info (domain_keys domain) attrs)
  = if String.eqb domain "py" && negb (String.eqb module "")
    then resolve_symbol rt linkcode_url repo_dir module fullname
    else Return None.
Proof. apply linkcode_resolve_signode_info. Qed.

Lemma getattr_chain_app {Obj} (rt : runtime Obj) (pre rest : list string) :
  ∀ obj,
    getattr_chain rt obj (pre ++ rest)
    = match getattr_chain rt obj pre with
      | Return (Some o) => getattr_chain rt o rest
      | other => other
      end.
Proof.
  induction pre as [| part pre IH]; intros obj; [reflexivity |].
  simpl. destruct (getattr rt obj part) as [o | e]; [apply IH |].
  by destruct e.
Qed.

(** The loop over the name catches [AttributeError] and nothing else:
    an attribute access that raises another exception, anywhere in the
    chain, makes [linkcode_resolve] raise it. *)
Theorem linkcode_resolve_attribute_exception {Obj} (rt : runtime Obj)
    (linkcode_url : string) (repo_dir : Path) (info : info_dict)
    (m f : string) (submod obj : Obj) (pre rest : list string)
    (part : string) (e : exn) :
  info !! "module" = Some m → m ≠ "" → info !! "fullname" = Some f →
  sys_modules rt m = Some submod →
  split_on "." f = pre ++ part :: rest →
  getattr_chain rt submod pre = Return (Some obj) →
  getattr rt obj part = Raise e →
  (∀ msg, e ≠ AttributeError msg) →
  linkcode_resolve rt linkcode_url repo_dir "py" info = Raise e.
Proof.
  intros Hm Hne Hf Hmod Hsplit Hpre Hget Hother.
  rewrite (linkcode_resolve_fields rt _ _ _ _ m f Hm Hne Hf). simpl.
  unfold resolve_symbol. rewrite Hmod, Hsplit, getattr_chain_app, Hpre.
  simpl. rewrite Hget.
  destruct e; try reflexivity. by destruct (Hother message).
Qed.

Lemma linkcode_resolve_attribute_exception_witness :
  linkcode_resolve lazy_runtime example_template example_repo_dir "py"
    {[ "module" := "pkg.mod"; "fullname" := "ClassName.optional.f" ]}
  = Raise (ImportError "numpy").
Proof.
  refine (linkcode_resolve_attribute_exception lazy_runtime example_template
            example_repo_dir
            {[ "module" := "pkg.mod"; "fullname" := "ClassName.optional.f" ]}
            "pkg.mod" "ClassName.optional.f" o_pkg_mod o_ClassName
            ["ClassName"] ["f"] "optional" (ImportError "numpy")
            eq_refl _ eq_refl eq_refl eq_refl eq_refl eq_refl _);
    [discriminate | intros msg; discriminate].
Defined.

(** A property is linked to the source of its getter, a cached property
    to that of its function: the name of an object that [isinstance]
    finds to be a [property] resolves to the very result that a name of
    its [fget] resolves to, and the name of one that is a
    [cached_property] and no [property] to that of its [func], the
    getter being neither itself. *)
Theorem resolve_symbol_accessor {Obj} (rt : runtime Obj)
    (linkcode_url : string) (repo_dir : Path) (m f_accessor f_getter : string)
    (submod accessor getter : Obj) :
  sys_modules rt m = Some submod →
  getattr_chain rt submod (split_on "." f_accessor) = Return (Some accessor) →
  getattr_chain rt submod (split_on "." f_getter) = Return (Some getter) →
  (is_property rt accessor = true ∧ fget rt accessor = getter)
  ∨ (is_property rt accessor = false
     ∧ is_cached_property rt accessor = true ∧ func rt accessor = getter) →
  is_property rt getter = false →
  is_cached_property rt getter = false →
  resolve_symbol rt linkcode_url repo_dir m f_accessor
    = resolve_symbol rt linkcode_url repo_dir m f_getter.
Proof.
  intros Hmod Hacc Hget Hkind Hgp Hgc. unfold resolve_symbol.
  rewrite Hmod, Hacc, Hget. simpl.
  assert (unwrap_accessor rt getter = getter) as ->
    by (unfold unwrap_accessor; by rewrite Hgp, Hgc).
  assert (unwrap_accessor rt accessor = getter) as ->; [| reflexivity].
  unfold unwrap_accessor.
  destruct Hkind as [[-> Hfget] | (-> & -> & Hfunc)]; done.
Qed.

Lemma resolve_symbol_accessor_witness :
  resolve_symbol accessor_runtime example_template example_repo_dir
    "pkg.mod" "ClassName.size"
  = resolve_symbol accessor_runtime example_template example_repo_dir
      "pkg.mod" "ClassName._get_size"
  ∧ resolve_symbol cached_runtime example_template example_repo_dir
      "pkg.mod" "ClassName.size"
    = resolve_symbol cached_runtime example_template example_repo_dir
        "pkg.mod" "ClassName._get_size".
Proof.
  split.
  - exact (resolve_symbol_accessor accessor_runtime example_template
             example_repo_dir "pkg.mod" "ClassName.size" "ClassName._get_size"
             o_pkg_mod o_size o_size_fget eq_refl eq_refl eq_refl
             (or_introl (conj eq_refl eq_refl)) eq_refl eq_refl).
  - exact (resolve_symbol_accessor cached_runtime example_template
             example_repo_dir "pkg.mod" "ClassName.size" "ClassName._get_size"
             o_pkg_mod o_size o_size_fget eq_refl eq_refl eq_refl
             (or_intror (conj eq_refl (conj eq_refl eq_refl)))
             eq_refl eq_refl).
Defined.

(** Both resolve to the lines of the getter. *)
Example resolve_symbol_accessor_example :
  resolve_symbol accessor_runtime example_template example_repo_dir
    "pkg.mod" "ClassName.size"
  = Return (Some "https://github.com/user/project/blob/v1.0/pkg/mod.py#L20-L22")
  ∧ resolve_symbol cached_runtime example_template example_repo_dir
      "pkg.mod" "ClassName.size"
    = Return (Some "https://github.com/user/project/blob/v1.0/pkg/mod.py#L20-L22").
Proof. split; reflexivity. Qed.

(** ** The annotator and the document *)

Lemma signode_info_no_keys attrs : signode_info [] attrs = ∅.
Proof. reflexivity. Qed.

Lemma domain_keys_unknown domain :
  domain ≠ "py" → domain ≠ "c" → domain ≠ "cpp" → domain ≠ "js" →
  domain_keys domain = [].
Proof.
  intros H1 H2 H3 H4. unfold domain_keys.
  by rewrite !eqb_neq_false.
Qed.

Lemma annotate_signodes_no_keys resolve_target domain children :
  domain_keys domain = [] →
  ∀ uris,
    annotate_signodes resolve_target domain uris children = (children, None).
Proof.
  intros Hkeys. induction children as [| child rest IH]; intros uris;
    [reflexivity |].
  simpl. rewrite (IH uris).
  destruct child as [d kids | attrs kids | u i kids | t c | kids];
    try reflexivity.
  rewrite Hkeys, signode_info_no_keys.
  by destruct (decide (_ = ∅)).
Qed.

(** A description of a domain other than ['py'], ['c'], ['cpp'] and
    ['js'] is left as it is, and the resolver is not called for it: the
    result is the same for every resolver, one that raises included. *)
Theorem process_objnode_unknown_domain (resolve_target : resolver)
    (domain : string) (children : list node) :
  domain ≠ "py" → domain ≠ "c" → domain ≠ "cpp" → domain ≠ "js" →
  process_objnode resolve_target (desc domain children)
    = (desc domain children, None).
Proof.
  intros H1 H2 H3 H4. unfold process_objnode.
  by rewrite (annotate_signodes_no_keys _ _ _
                (domain_keys_unknown _ H1 H2 H3 H4)).
Qed.

Lemma process_objnode_unknown_domain_witness :
  process_objnode (λ _ _, Raise (ValueError "not reached"))
    (desc "std" [desc_signature {[ "module" := "pkg.mod" ]} []])
  = (desc "std" [desc_signature {[ "module" := "pkg.mod" ]} []], None).
Proof.
  apply (process_objnode_unknown_domain
           (λ _ _, Raise (ValueError "not reached")) "std"
           [desc_signature {[ "module" := "pkg.mod" ]} []]); discriminate.
Defined.

Lemma annotate_signodes_steps (resolve_target : resolver)
    (domain : string) (children : list node) (uris : gset string) :
  Forall2 annotated children
    (annotate_signodes resolve_target domain uris children).1.
Proof.
  revert uris. induction children as [| child rest IH]; intros uris;
    [constructor |].
  assert (∀ uris' signode,
            annotated child signode →
            Forall2 annotated (child :: rest)
              (let '(rest', e) :=
                 annotate_signodes resolve_target domain uris' rest in
               (signode :: rest', e)).1) as Hcontinue.
  { intros uris' signode Hstep. specialize (IH uris').
    destruct (annotate_signodes resolve_target domain uris' rest)
      as [rest' e]. by constructor. }
  simpl annotate_signodes.
  destruct child as [d kids | attrs kids | u i kids | t c | kids];
    try (apply Hcontinue; constructor).
  destruct (decide (signode_info (domain_keys domain) attrs = ∅));
    [apply Hcontinue; constructor |].
  destruct (resolve_target domain _) as [r | e].
  - destruct (uri_falsy r) eqn:Hfalsy; [apply Hcontinue; constructor |].
    apply uri_falsy_false in Hfalsy as (u & -> & Hu). simpl default.
    destruct (decide (u ∈ uris)); apply Hcontinue; by constructor.
  - simpl. apply Forall2_same_length_lookup_2; [done |].
    intros i x y Hx Hy. rewrite Hx in Hy. injection Hy as <-. constructor.
Qed.

(** Processing a [desc] node keeps its domain and its children in
    number and order; each child is either untouched or a signature
    with one link, of non-empty target, appended.  This holds also when
    the resolver raises: the children met before the exception keep
    their links, the others are untouched. *)
Theorem process_objnode_annotated (resolve_target : resolver)
    (domain : string) (children : list node) :
  ∃ children',
    (process_objnode resolve_target (desc domain children)).1
      = desc domain children'
    ∧ Forall2 annotated children children'
    ∧ length children' = length children.
Proof.
  pose proof (annotate_signodes_steps resolve_target domain children ∅)
    as Hsteps.
  unfold process_objnode.
  destruct (annotate_signodes resolve_target domain ∅ children)
    as [children' e].
  exists children'. split; [reflexivity |]. split; [exact Hsteps |].
  symmetry. by eapply Forall2_length.
Qed.

Lemma annotate_signodes_never_links resolve_target domain children :
  never_links resolve_target →
  ∀ uris,
    annotate_signodes resolve_target domain uris children = (children, None).
Proof.
  intros Hnever. induction children as [| child rest IH]; intros uris;
    [reflexivity |].
  simpl. rewrite (IH uris).
  destruct child as [d kids | attrs kids | u i kids | t c | kids];
    try reflexivity.
  destruct (decide (_ = ∅)); [reflexivity |].
  destruct (Hnever domain (signode_info (domain_keys domain) attrs))
    as (uri & -> & ->). reflexivity.
Qed.

Lemma set_children_node_children (n : node) :
  set_children n (node_children n) = n.
Proof. by destruct n. Qed.

Lemma update_at_fixed (f : node → node * option exn) :
  (∀ n, f n = (n, None)) →
  ∀ path n, update_at f path n = (n, None).
Proof.
  intros Hf. induction path as [| i path IH]; intros n; [apply Hf |].
  simpl. destruct (node_children n !! i) as [c |] eqn:Hc; [| reflexivity].
  rewrite (IH c), (list_insert_id _ _ _ Hc).
  by rewrite set_children_node_children.
Qed.

(** With a resolver that never gives a link, [doctree_read] returns the
    document as it was, without error. *)
Theorem doctree_read_never_links (resolve_target : resolver)
    (doctree : node) :
  never_links resolve_target →
  doctree_read (Some resolve_target) doctree = (doctree, None).
Proof.
  intros Hnever. unfold doctree_read.
  assert (∀ n, process_objnode resolve_target n = (n, None)) as Hfixed.
  { intros [d kids | | | |]; try reflexivity.
    unfold process_objnode.
    by rewrite (annotate_signodes_never_links _ _ _ Hnever). }
  induction (findall_desc doctree) as [| path paths IH] using rev_ind;
    [reflexivity |].
  rewrite foldl_snoc, IH. apply (update_at_fixed _ Hfixed).
Qed.

Lemma doctree_read_never_links_witness :
  doctree_read (Some (λ _ _, Return (Some ""))) example_doctree
  = (example_doctree, None).
Proof.
  apply (doctree_read_never_links (λ _ _, Return (Some "")) example_doctree).
  intros domain info. by exists (Some "").
Defined.

(** *** The document without its source links *)

Lemma erase_links_signature attrs kids :
  erase_links (desc_signature attrs kids)
    = desc_signature attrs (erase_signature_children kids).
Proof.
  simpl. f_equal. unfold erase_signature_children.
  induction kids as [| k kids IH]; [reflexivity |].
  simpl. rewrite IH. by destruct (is_source_link k).
Qed.

Lemma is_source_link_source_link uri : is_source_link (source_link uri) = true.
Proof. reflexivity. Qed.

Lemma annotated_erase_links n n' :
  annotated n n' → erase_links n = erase_links n'.
Proof.
  intros [m | attrs kids uri _]; [reflexivity |].
  rewrite !erase_links_signature. f_equal.
  unfold erase_signature_children.
  rewrite flat_map_app. simpl. by rewrite app_nil_r.
Qed.

Lemma Forall2_annotated_erase_links (l l' : list node) :
  Forall2 annotated l l' → map erase_links l = map erase_links l'.
Proof.
  induction 1 as [| n n' l l' Hstep _ IH]; [reflexivity |].
  simpl. by rewrite (annotated_erase_links _ _ Hstep), IH.
Qed.

Lemma process_objnode_erase_links resolve_target n :
  erase_links (process_objnode resolve_target n).1 = erase_links n.
Proof.
  destruct n as [d kids | | | |]; try reflexivity.
  pose proof (annotate_signodes_steps resolve_target d kids ∅) as Hsteps.
  unfold process_objnode.
  destruct (annotate_signodes resolve_target d ∅ kids) as [kids' e].
  simpl in *. f_equal. symmetry. by apply Forall2_annotated_erase_links.
Qed.

Lemma process_objnode_is_source_link resolve_target n :
  is_source_link (process_objnode resolve_target n).1 = is_source_link n.
Proof.
  destruct n as [d kids | | | |]; try reflexivity.
  unfold process_objnode.
  by destruct (annotate_signodes resolve_target d ∅ kids).
Qed.

Lemma update_at_inline resolve_target path text classes :
  update_at (process_objnode resolve_target) path (inline text classes)
    = (inline text classes, None).
Proof. destruct path as [| i path]; [reflexivity |]. by destruct i. Qed.

Lemma update_at_to_inline resolve_target path n text classes :
  (update_at (process_objnode resolve_target) path n).1 = inline text classes →
  n = inline text classes.
Proof.
  destruct path as [| i path].
  - simpl. destruct n as [d kids | | | |]; try done.
    unfold process_objnode.
    by destruct (annotate_signodes resolve_target d ∅ kids).
  - simpl. destruct (node_children n !! i) as [c |]; [| done].
    destruct (update_at _ path c) as [c' e]. simpl.
    by destruct n.
Qed.

Lemma update_at_is_source_link resolve_target path n :
  is_source_link (update_at (process_objnode resolve_target) path n).1
    = is_source_link n.
Proof.
  destruct path as [| i path]; [apply process_objnode_is_source_link |].
  simpl. destruct (node_children n !! i) as [c |] eqn:Hc; [| reflexivity].
  pose proof (update_at_to_inline resolve_target path c) as Hto.
  pose proof (update_at_inline resolve_target path) as Hfrom.
  destruct (update_at _ path c) as [c' e] eqn:Hupd. simpl in *.
  destruct n as [d kids | attrs kids | u b kids | t cl | kids];
    try reflexivity.
  simpl in *. destruct b; [reflexivity |].
  destruct kids as [| x [| y kids]].
  - done.
  - destruct i as [| i]; [| done]. injection Hc as ->. simpl.
    destruct c as [| | | t cl |];
      try (destruct c' as [| | | t' cl' |]; try reflexivity;
           by specialize (Hto t' cl' eq_refl)).
    rewrite Hfrom in Hupd. by injection Hupd as <- <-.
  - destruct i as [| i]; simpl.
    + by destruct c', x.
    + destruct i; simpl; by destruct x.
Qed.

Lemma map_insert_same {A B} (f : A → B) (l : list A) i x x' :
  l !! i = Some x → f x' = f x → map f (<[i := x']> l) = map f l.
Proof.
  revert i. induction l as [| y l IH]; intros [| i] Hl Hf; try done.
  - injection Hl as ->. simpl. by rewrite Hf.
  - simpl. by rewrite (IH i Hl Hf).
Qed.

Lemma erase_signature_children_insert (kids : list node) i c c' :
  kids !! i = Some c →
  erase_links c' = erase_links c →
  is_source_link c' = is_source_link c →
  erase_signature_children (<[i := c']> kids) = erase_signature_children kids.
Proof.
  unfold erase_signature_children.
  revert i. induction kids as [| k kids IH]; intros [| i] Hk He Hs; try done.
  - injection Hk as ->. simpl. by rewrite He, Hs.
  - simpl. by rewrite (IH i Hk He Hs).
Qed.

Lemma update_at_erase_links resolve_target path :
  ∀ n, erase_links (update_at (process_objnode resolve_target) path n).1
       = erase_links n.
Proof.
  induction path as [| i path IH]; intros n;
    [apply process_objnode_erase_links |].
  simpl. destruct (node_children n !! i) as [c |] eqn:Hc; [| reflexivity].
  pose proof (IH c) as He.
  pose proof (update_at_is_source_link resolve_target path c) as Hs.
  destruct (update_at _ path c) as [c' e]. simpl in *.
  destruct n as [d kids | attrs kids | u b kids | t cl | kids]; simpl in Hc.
  - simpl. f_equal. by eapply map_insert_same.
  - simpl set_children. rewrite !erase_links_signature. f_equal.
    by eapply erase_signature_children_insert.
  - simpl. f_equal. by eapply map_insert_same.
  - reflexivity.
  - simpl. f_equal. by eapply map_insert_same.
Qed.

(** Round trip: erasing the source links under the signatures of the
    document [doctree_read] returns gives what erasing them in the
    document it was given gives.  The annotator changes nothing else: no
    node is removed, moved or rewritten, with or without a callable
    resolver, whether or not the resolver raises. *)
Theorem doctree_read_erase_links (resolve_target : option resolver)
    (doctree : node) :
  erase_links (doctree_read resolve_target doctree).1 = erase_links doctree.
Proof.
  destruct resolve_target as [resolve_target |]; [| reflexivity].
  unfold doctree_read.
  induction (findall_desc doctree) as [| path paths IH] using rev_ind;
    [reflexivity |].
  rewrite foldl_snoc.
  destruct (foldl _ (doctree, None) paths) as [tree [e |]]; [exact IH |].
  simpl in IH. rewrite <- IH. apply update_at_erase_links.
Qed.

(** ** The keywords of the lexer, exactly *)

(** The keywords [get_pkg_funcs] collects are exactly the names of the
    members that [isfunction] accepts, on the package, on the modules
    that are members of the package, and on the classes that are members
    of those modules.  A name that only [ismethod] accepts is not among
    them, and the classes that are members of the package itself are
    not searched. *)
Theorem get_pkg_funcs_exactly_functions {Obj} (rt : runtime Obj) (pkg : Obj)
    (name : string) :
  name ∈ get_pkg_funcs rt pkg
  ↔ ∃ f,
      isfunction rt f = true
      ∧ ((name, f) ∈ getmembers_all rt pkg
         ∨ ∃ mname m,
             (mname, m) ∈ getmembers_all rt pkg ∧ ismodule rt m = true
             ∧ ((name, f) ∈ getmembers_all rt m
                ∨ ∃ cname c,
                    (cname, c) ∈ getmembers_all rt m ∧ isclass rt c = true
                    ∧ (name, f) ∈ getmembers_all rt c)).
Proof.
  rewrite get_pkg_funcs_elem, get_funcs_elem. split.
  - intros [(f & Hin & Hf) | ([mname m] & Hm & Hrest)]; [by eauto |].
    unfold getmembers in Hm. apply list_elem_of_filter in Hm as [Hmod Hm].
    simpl in *. rewrite get_funcs_elem in Hrest.
    destruct Hrest as [(f & Hin & Hf) | ([cname c] & Hc & Hrest)].
    { exists f. split; [done |]. right. exists mname, m. by eauto. }
    unfold getmembers in Hc. apply list_elem_of_filter in Hc as [Hcls Hc].
    simpl in *. rewrite get_funcs_elem in Hrest.
    destruct Hrest as (f & Hin & Hf).
    exists f. split; [done |]. right. exists mname, m.
    split; [done |]. split; [done |]. right. exists cname, c. by eauto.
  - intros (f & Hf & [Hin | (mname & m & Hm & Hmod & Hin)]); [by eauto |].
    right. exists (mname, m). split.
    { unfold getmembers. by apply list_elem_of_filter. }
    simpl. rewrite get_funcs_elem.
    destruct Hin as [Hin | (cname & c & Hc & Hcls & Hin)]; [by eauto |].
    right. exists (cname, c). split.
    { unfold getmembers. by apply list_elem_of_filter. }
    simpl. rewrite get_funcs_elem. by eauto.
Qed.

(** ** Reading and writing the configuration *)

Lemma get_conf_val_set_same {V} (app : Sphinx V) attr (value default : V) :
  get_conf_val (set_conf_val app attr value) attr default = value.
Proof.
  unfold get_conf_val, set_conf_val. simpl. by rewrite lookup_insert_eq.
Qed.

Lemma get_conf_val_set_other {V} (app : Sphinx V) attr (value : V) other d :
  other ≠ attr →
  get_conf_val (set_conf_val app attr value) other d = get_conf_val app other d.
Proof.
  intros Hne. unfold get_conf_val, set_conf_val, config_getattr. simpl.
  by rewrite !lookup_insert_ne.
Qed.

(** What [set_conf_val] writes, [get_conf_val] reads back, whatever the
    default asked for and whatever the configuration held; plain
    attribute access sees the value too; the other values read as
    before. *)
Theorem get_conf_val_set_conf_val {V} (app : Sphinx V) (attr : string)
    (value default : V) :
  get_conf_val (set_conf_val app attr value) attr default = value
  ∧ config_getattr (config (set_conf_val app attr value)) attr = Return value
  ∧ (∀ other d, other ≠ attr →
       get_conf_val (set_conf_val app attr value) other d
         = get_conf_val app other d).
Proof.
  split; [apply get_conf_val_set_same |].
  split; [| apply get_conf_val_set_other].
  unfold set_conf_val, config_getattr. simpl. by rewrite lookup_insert_eq.
Qed.

Lemma get_conf_val_set_conf_val_witness :
  get_conf_val
    (set_conf_val example_app "linkcode_url" (CStr "https://example.org"))
    "html_context" CNone
  = get_conf_val example_app "html_context" CNone.
Proof.
  apply (proj2 (proj2 (get_conf_val_set_conf_val example_app "linkcode_url"
                         (CStr "https://example.org") CNone))).
  discriminate.
Defined.

(** ** [setup] of the lexer module *)

(** The attribute [pkg_name] is looked up before [_raw_config] is
    asked: when no extension has registered [pkg_name] and the
    configuration object has no such attribute, [setup] raises
    [AttributeError], also when [conf.py] sets [pkg_name]. *)
Theorem lexer_setup_unregistered {Obj} (rt : runtime Obj)
    (cls : TDKMethLexer) (app : Sphinx pyval) :
  config_attrs (config app) !! "pkg_name" = None →
  config_values (config app) !! "pkg_name" = None →
  lexer_setup rt cls app
    = Raise (AttributeError "No such config value: pkg_name").
Proof.
  intros Hattr Hvalue. unfold lexer_setup, config_getattr.
  by rewrite Hattr, Hvalue.
Qed.

Lemma lexer_setup_unregistered_witness :
  _raw_config (config example_lexer_app) !! "pkg_name" = Some (PyStr "pkg")
  ∧ lexer_setup example_runtime {| EXTRA_KEYWORDS := ∅ |} example_lexer_app
    = Raise (AttributeError "No such config value: pkg_name").
Proof.
  split; [reflexivity |].
  exact (lexer_setup_unregistered example_runtime {| EXTRA_KEYWORDS := ∅ |}
           example_lexer_app eq_refl eq_refl).
Defined.

(** With [pkg_name] registered: the value of [conf.py] wins over the
    registered one; [None] is an [ExtensionError]; a string is the
    package to import, a failing import passing through; on success the
    only change to the application is the lexer under the alias
    ['python'], whose keywords are those of the package, whatever the
    class held before. *)
Theorem lexer_setup_registered {Obj} (rt : runtime Obj)
    (cls : TDKMethLexer) (app : Sphinx pyval) (attribute : pyval) :
  config_getattr (config app) "pkg_name" = Return attribute →
  let pkg_name :=
    default attribute (_raw_config (config app) !! "pkg_name") in
  match pkg_name with
  | PyNone =>
      lexer_setup rt cls app
        = Raise (ExtensionError "`pkg_name` is missing from conf.py")
  | PyStr name =>
      match import_ rt name with
      | Raise e => lexer_setup rt cls app = Raise e
      | Return pkg =>
          ∃ app',
            lexer_setup rt cls app = Return app'
            ∧ lexers app'
              = <["python" :=
                    TDKLexer {| EXTRA_KEYWORDS := get_pkg_funcs rt pkg |}]>
                  (lexers app)
            ∧ config app' = config app
            ∧ listeners app' = listeners app
      end
  end.
Proof.
  intros Hattr pkg_name. unfold lexer_setup. rewrite Hattr. simpl.
  fold pkg_name. destruct pkg_name as [| name]; [reflexivity |].
  unfold get_pkg_lexer.
  destruct (import_ rt name) as [pkg | e]; simpl; [| reflexivity].
  by eexists.
Qed.

Lemma lexer_setup_registered_witness :
  ∃ app',
    lexer_setup example_runtime {| EXTRA_KEYWORDS := {[ "old" ]} |}
      example_lexer_app_registered = Return app'
    ∧ lexers app'
      = <["python" :=
            TDKLexer
              {| EXTRA_KEYWORDS := get_pkg_funcs example_runtime o_pkg |}]>
          (lexers example_lexer_app_registered)
    ∧ config app' = config example_lexer_app_registered
    ∧ listeners app' = listeners example_lexer_app_registered.
Proof.
  exact (lexer_setup_registered example_runtime
           {| EXTRA_KEYWORDS := {[ "old" ]} |} example_lexer_app_registered
           PyNone eq_refl).
Defined.

(** ** [setup] of the extension *)

Lemma add_config_value_config {V} (app app' : Sphinx V) name (default : V) :
  add_config_value app name default = Return app' →
  _raw_config (config app') = _raw_config (config app)
  ∧ config_attrs (config app') = config_attrs (config app)
  ∧ config_values (config app')
    = <[name := default]> (config_values (config app))
  ∧ listeners app' = listeners app
  ∧ lexers app' = lexers app.
Proof.
  unfold add_config_value, config_add.
  destruct (config_values (config app) !! name); [discriminate |].
  simpl. by intros [= <-].
Qed.

(** Registering one value leaves the reading of the others alone. *)
Lemma get_conf_val_add_config_value {V} (app app' : Sphinx V) name
    (default : V) other d :
  add_config_value app name default = Return app' →
  other ≠ name →
  get_conf_val app' other d = get_conf_val app other d.
Proof.
  intros Hadd Hne.
  apply add_config_value_config in Hadd as (Hraw & Hattrs & Hvalues & _).
  unfold get_conf_val, config_getattr.
  by rewrite Hraw, Hattrs, Hvalues, lookup_insert_ne.
Qed.

(** Outside a repository [setup] cannot succeed: the repository root is
    looked up whatever the configuration says, also when [conf.py]
    brings its own [linkcode_resolve], which needs neither the root
    nor the template. *)
Theorem setup_outside_repository {Obj} (rt : runtime Obj) (git : vcs)
    (setup_extension : string → Sphinx confval → pyresult (Sphinx confval))
    (display_version : string) (app : Sphinx confval) (rc : Z) :
  conf_well_typed (config app) →
  git show_toplevel_cmd = ExitedNonZero rc →
  ∃ e, setup rt git setup_extension display_version app = Raise e.
Proof.
  intros _ Hgit.
  assert (∃ e, setup_resolver rt git app = Raise e) as [e He].
  { unfold setup_resolver.
    destruct (add_config_value _ _ _) as [app1 | e]; simpl; [| by eauto].
    destruct (match conf_str _ with Some _ => _ | None => _ end)
      as [blob | e]; simpl; [| by eauto].
    destruct (get_linkcode_url _ _ _ _) as [template | e]; simpl;
      [| by eauto].
    unfold get_repo_dir. rewrite (check_output_stripped_fail _ _ _ Hgit).
    simpl. by eauto. }
  exists e. unfold setup. by rewrite He.
Qed.

Lemma example_app_own_resolver_well_typed :
  conf_well_typed (config example_app_own_resolver).
Proof.
  intros table Htable.
  repeat (apply elem_of_cons in Htable as [-> | Htable]);
    [| | | by apply elem_of_nil in Htable];
    repeat split; intros v Hv; vm_compute in Hv;
    first [discriminate Hv | by injection Hv as <-].
Defined.

Lemma setup_outside_repository_witness :
  ∃ e, setup example_runtime not_a_repository (λ _ app, Return app) "7.2.6"
         example_app_own_resolver = Raise e.
Proof.
  exact (setup_outside_repository example_runtime not_a_repository
           (λ _ app, Return app) "7.2.6" example_app_own_resolver 128%Z
           example_app_own_resolver_well_typed eq_refl).
Defined.

(** When the first half of [setup] succeeds, [linkcode_resolve] is
    callable in the configuration it leaves: the function of [conf.py]
    if there was a callable one, untouched, and otherwise the default
    resolver, made of a template [get_linkcode_url] returned and of the
    repository root.  Nothing else of the configuration that
    [get_conf_val] reads has changed, [linkcode_blob] apart, now
    registered. *)
Theorem setup_resolver_installed {Obj} (rt : runtime Obj) (git : vcs)
    (app app' : Sphinx confval) :
  conf_well_typed (config app) →
  setup_resolver rt git app = Return app' →
  let before := get_conf_val app "linkcode_resolve" CNone in
  let after := get_conf_val app' "linkcode_resolve" CNone in
  callable after = true
  ∧ (callable before = true → after = before)
  ∧ (callable before = false →
     ∃ blob template repo_dir,
       get_linkcode_url git blob
         (conf_dict (get_conf_val app "html_context" CNone))
         (conf_str (get_conf_val app "linkcode_url" CNone)) = Return template
       ∧ get_repo_dir git = Return repo_dir
       ∧ after = CFunc (linkcode_resolve rt template repo_dir))
  ∧ (∀ other d, other ≠ "linkcode_resolve" → other ≠ "linkcode_blob" →
       get_conf_val app' other d = get_conf_val app other d).
Proof.
  intros _ Hsetup before after. subst before after.
  unfold setup_resolver in Hsetup.
  destruct (add_config_value _ _ _) as [app1 | e] eqn:Hadd; simpl in Hsetup;
    [| discriminate].
  assert (∀ other d, other ≠ "linkcode_blob" →
            get_conf_val app1 other d = get_conf_val app other d) as Hsame.
  { intros other d Hne.
    by rewrite (get_conf_val_add_config_value _ _ _ _ _ _ Hadd Hne). }
  rewrite !Hsame in Hsetup by done.
  destruct (match conf_str _ with Some _ => _ | None => _ end)
    as [blob | e]; simpl in Hsetup; [| discriminate].
  destruct (get_linkcode_url _ _ _ _) as [template | e] eqn:Hurl;
    simpl in Hsetup; [| discriminate].
  destruct (get_repo_dir git) as [repo_dir | e] eqn:Hrepo; simpl in Hsetup;
    [| discriminate].
  destruct (callable (get_conf_val app "linkcode_resolve" CNone)) eqn:Hcall.
  - injection Hsetup as <-. rewrite !Hsame by done.
    split; [done |]. split; [done |]. split; [done |].
    intros other d _ Hne. by apply Hsame.
  - injection Hsetup as <-.
    rewrite get_conf_val_set_same.
    split; [done |]. split; [done |]. split.
    + intros _. by exists blob, template, repo_dir.
    + intros other d Hne1 Hne2.
      rewrite get_conf_val_set_other by done. by apply Hsame.
Qed.

Lemma example_app_well_typed : conf_well_typed (config example_app).
Proof.
  intros table Htable.
  repeat (apply elem_of_cons in Htable as [-> | Htable]);
    [| | | by apply elem_of_nil in Htable];
    repeat split; intros v Hv; vm_compute in Hv;
    first [discriminate Hv | by injection Hv as <-].
Defined.

Lemma setup_resolver_installed_witness :
  ∃ app',
    setup_resolver example_runtime tagged_repo example_app = Return app'
    ∧ callable (get_conf_val app' "linkcode_resolve" CNone) = true.
Proof.
  eexists. split; [reflexivity |].
  exact (proj1 (setup_resolver_installed example_runtime tagged_repo
                  example_app _ example_app_well_typed eq_refl)).
Defined.

(** After [linkcode_blob] is registered, it reads as the value of
    [conf.py], else as the attribute, else as ['head']. *)
Lemma get_conf_val_linkcode_blob (app app1 : Sphinx confval) :
  add_config_value app "linkcode_blob" (CStr "head") = Return app1 →
  get_conf_val app1 "linkcode_blob" CNone
    = default (default (CStr "head")
                 (config_attrs (config app) !! "linkcode_blob"))
              (_raw_config (config app) !! "linkcode_blob").
Proof.
  intros Hadd.
  apply add_config_value_config in Hadd as (Hraw & Hattrs & Hvalues & _).
  unfold get_conf_val, config_getattr.
  rewrite Hraw, Hattrs, Hvalues, lookup_insert_eq.
  destruct (_raw_config (config app) !! "linkcode_blob"); [done |].
  by destruct (config_attrs (config app) !! "linkcode_blob").
Qed.

(** What [setup] installs when [conf.py] has no resolver.  Let [b] be
    [linkcode_blob], ['head'] if it is not set, and [r] the revision
    [b] resolves to, not empty and not itself a mode name.  Then the
    resolver stored in the configuration is [linkcode_resolve] for the
    template [<url>/blob/<r>/{filepath}#L{linestart}-L{linestop}], the
    URL without the slashes around it, and for the directory that [git
    rev-parse --show-toplevel] prints. *)
Theorem setup_resolver_default {Obj} (rt : runtime Obj) (git : vcs)
    (app : Sphinx confval) (b r u out : string) :
  config_values (config app) !! "linkcode_blob" = None →
  default (default (CStr "head")
             (config_attrs (config app) !! "linkcode_blob"))
          (_raw_config (config app) !! "linkcode_blob") = CStr b →
  get_linkcode_revision git b = Return r →
  r ≠ "" → r ≠ "head" → r ≠ "last_tag" →
  get_conf_val app "linkcode_url" CNone = CStr u →
  callable (get_conf_val app "linkcode_resolve" CNone) = false →
  git show_toplevel_cmd = Exited0 out →
  ∃ app',
    setup_resolver rt git app = Return app'
    ∧ get_conf_val app' "linkcode_resolve" CNone
      = CFunc (linkcode_resolve rt
                 (strip is_slash u +:+ "/blob/" +:+ r +:+ "/"
                  +:+ template_suffix)
                 (Path_of_str (strip is_whitespace out))).
Proof.
  intros Hvalues Hblob Hrev Hne Hhead Htag Hurl Hcall Hgit.
  unfold setup_resolver.
  destruct (add_config_value (connect app "builder-inited" cb_add_static_path)
              "linkcode_blob" (CStr "head")) as [app1 | e] eqn:Hadd.
  2: { unfold add_config_value, config_add in Hadd. simpl in Hadd.
       by rewrite Hvalues in Hadd. }
  simpl.
  rewrite (get_conf_val_linkcode_blob _ _ Hadd). simpl. rewrite Hblob. simpl.
  rewrite Hrev. simpl.
  rewrite !(get_conf_val_add_config_value _ _ _ _ _ _ Hadd) by done.
  change (get_conf_val (connect app "builder-inited" cb_add_static_path))
    with (get_conf_val app).
  rewrite Hurl, Hcall. simpl.
  rewrite (get_linkcode_url_explicit_template git r u _ Hne Hhead Htag).
  simpl. unfold get_repo_dir.
  rewrite (check_output_stripped_ok _ _ _ Hgit). simpl.
  eexists. split; [reflexivity |]. apply get_conf_val_set_same.
Qed.

Lemma setup_resolver_default_witness :
  ∃ app',
    setup_resolver example_runtime tagged_repo example_app = Return app'
    ∧ get_conf_val app' "linkcode_resolve" CNone
      = CFunc (linkcode_resolve example_runtime
                 (strip is_slash "https://github.com/user/project"
                  +:+ "/blob/" +:+ "v1.0" +:+ "/" +:+ template_suffix)
                 (Path_of_str
                    (strip is_whitespace
                       ("/home/user/project" +:+ String "010" "")))).
Proof.
  refine (setup_resolver_default example_runtime tagged_repo example_app
            "head" "v1.0" "https://github.com/user/project"
            ("/home/user/project" +:+ String "010" "")
            eq_refl eq_refl eq_refl _ _ _ eq_refl eq_refl eq_refl);
    discriminate.
Defined.

(** ** The handler with the default resolver *)




